(** * p1.py: DSMR P1 telegrams from a smart meter to InfluxDB

    A shallow embedding of [p1.py] and the properties of its read loop,
    field extraction and dual-rate routing.

    Text is modelled by [string], i.e. sequences of code points below 256.
    On those code points Python's [\d] is exactly [0-9] and [str.isspace]
    is the set listed in [isspace].  Python floats are IEEE binary64 values,
    modelled by [spec_float] with precision 53 and maximal exponent 1024.
    Dates follow CPython's [datetime] and [_strptime] modules, whose
    functions keep their names here.  The meter is the list of the lines it
    sends, already decoded; the InfluxDB writer and standard output are the
    trace of the calls made on them. *)

From Stdlib Require Import ZArith List String Ascii Bool Lia.
From Stdlib Require Import Floats.SpecFloat Floats.PrimFloat Floats.FloatOps.
Import ListNotations.

Set Warnings "-inexact-float".

Open Scope string_scope.
Open Scope Z_scope.

(** ** Exceptions and results *)

(** The exceptions the program can raise; none of them is caught in
    [p1.py], so each one ends the process. *)
Inductive exn : Type :=
| ValueError
| OverflowError
| AttributeError.

Inductive result (A : Type) : Type :=
| Ok (a : A)
| Raise (e : exn).

Arguments Ok {A} a.
Arguments Raise {A} e.

Definition bind {A B : Type} (r : result A) (k : A -> result B) : result B :=
  match r with
  | Ok a => k a
  | Raise e => Raise e
  end.

Declare Scope py_scope.
Delimit Scope py_scope with py.
Notation "x <- r ;; k" := (bind r (fun x => k))
  (at level 61, r at next level, right associativity) : py_scope.
Open Scope py_scope.

(** ** Strings: [str.strip] and the pieces of the regular expressions *)

Definition in_range (lo hi : nat) (c : ascii) : bool :=
  let n := nat_of_ascii c in (Nat.leb lo n && Nat.leb n hi)%bool.

(** [\d] *)
Definition is_digit (c : ascii) : bool := in_range 48 57 c.

(** [[A-F0-9]] *)
Definition is_upper_hex (c : ascii) : bool :=
  (in_range 65 70 c || in_range 48 57 c)%bool.

(** [[WS]] *)
Definition is_dst_flag (c : ascii) : bool :=
  (Ascii.eqb c "W" || Ascii.eqb c "S")%bool.

Definition newline : ascii := ascii_of_nat 10.

(** [str.isspace] on one character. *)
Definition isspace (c : ascii) : bool :=
  let n := nat_of_ascii c in
  (in_range 9 13 c || in_range 28 32 c || Nat.eqb n 133 || Nat.eqb n 160)%bool.

Fixpoint lstrip (s : string) : string :=
  match s with
  | String c r => if isspace c then lstrip r else s
  | EmptyString => EmptyString
  end.

(** Right strip: a character is kept when it is not white space or when
    something is kept after it. *)
Fixpoint rstrip (s : string) : string :=
  match s with
  | String c r =>
      match rstrip r with
      | EmptyString => if isspace c then EmptyString else String c EmptyString
      | r' => String c r'
      end
  | EmptyString => EmptyString
  end.

(** [s.strip()] *)
Definition strip (s : string) : string := rstrip (lstrip s).

(** A literal at the start of the text; the rest of the text is returned. *)
Fixpoint lit (p s : string) : option string :=
  match p with
  | EmptyString => Some s
  | String a p' =>
      match s with
      | String b s' => if Ascii.eqb a b then lit p' s' else None
      | EmptyString => None
      end
  end.

(** The longest prefix in a character class, and what follows it: the
    greedy [c*]. *)
Fixpoint span (f : ascii -> bool) (s : string) : string * string :=
  match s with
  | String c r =>
      if f c then let (a, b) := span f r in (String c a, b)
      else (EmptyString, s)
  | EmptyString => (EmptyString, EmptyString)
  end.

(** Greedy [c+]: fails on an empty run. *)
Definition many1 (f : ascii -> bool) (s : string) : option (string * string) :=
  match span f s with
  | (EmptyString, _) => None
  | (a, b) => Some (a, b)
  end.

(** Exactly one character of a class. *)
Definition one (f : ascii -> bool) (s : string) : option (string * string) :=
  match s with
  | String c r => if f c then Some (String c EmptyString, r) else None
  | EmptyString => None
  end.

(** Exactly [n] characters of a class: [c{n}]. *)
Fixpoint exactly (n : nat) (f : ascii -> bool) (s : string)
  : option (string * string) :=
  match n with
  | O => Some (EmptyString, s)
  | S n' =>
      match s with
      | String c r =>
          if f c then
            match exactly n' f r with
            | Some (a, b) => Some (String c a, b)
            | None => None
            end
          else None
      | EmptyString => None
      end
  end.

(** [$] without [re.MULTILINE]: the end of the text, or just before a
    newline that ends the text. *)
Definition dollar (s : string) : bool :=
  match s with
  | EmptyString => true
  | String c EmptyString => Ascii.eqb c newline
  | _ => false
  end.

(** [\d+\.\d+] at the start of the text: the digits before the point, the
    digits after it, and the rest of the text. *)
Definition decimal (s : string) : option (string * string * string) :=
  match many1 is_digit s with
  | Some (ip, r) =>
      match lit "." r with
      | Some r =>
          match many1 is_digit r with
          | Some (fp, r) => Some (ip, fp, r)
          | None => None
          end
      | None => None
      end
  | None => None
  end.

(** ** Numbers: [int] and [float] *)

Definition digit_value (c : ascii) : Z := Z.of_nat (nat_of_ascii c) - 48.

Fixpoint all_digits (s : string) : bool :=
  match s with
  | String c r => (is_digit c && all_digits r)%bool
  | EmptyString => true
  end.

Fixpoint digits_value (acc : Z) (s : string) : Z :=
  match s with
  | String c r => digits_value (10 * acc + digit_value c) r
  | EmptyString => acc
  end.

(** [int(s)] on unsigned decimal text, the only form [strptime] passes to
    it: surrounding white space is ignored, anything but a non-empty run of
    digits raises. *)
Definition int_ (s : string) : result Z :=
  match strip s with
  | EmptyString => Raise ValueError
  | t => if all_digits t then Ok (digits_value 0 t) else Raise ValueError
  end.

(** A Python float: an IEEE binary64 value. *)
Definition float : Type := spec_float.

Definition float_of_int (n : Z) : float := binary_normalize prec emax n 0 false.

Definition float_mul (x y : float) : float := SFmul prec emax x y.

(** The binary64 value nearest to [n / d] (ties to even), for [d > 0]. *)
Definition float_of_ratio (n : Z) (d : positive) : float :=
  match n with
  | Z0 => S754_zero false
  | Zpos p => SFdiv prec emax (S754_finite false p 0) (S754_finite false d 0)
  | Zneg p => SFdiv prec emax (S754_finite true p 0) (S754_finite false d 0)
  end.

(** [float(s)] on the literals [\d+\.\d+], the only ones the program
    converts: the correctly rounded value of the decimal fraction, with
    infinity on overflow.  Every other text raises [ValueError] here
    (Python would accept signs, exponents and more, none of which a capture
    of [\d+\.\d+] can hold). *)
Definition float_ (s : string) : result float :=
  match decimal s with
  | Some (ip, fp, EmptyString) =>
      Ok (float_of_ratio (digits_value 0 (ip ++ fp))
                         (Z.to_pos (10 ^ Z.of_nat (String.length fp))))
  | _ => Raise ValueError
  end.

(** ** [datetime]: naive date-times and [timedelta] *)

(** A naive [datetime.datetime]; the microsecond is always zero here. *)
Record datetime : Type := mk_datetime {
  year : Z;
  month : Z;
  day : Z;
  hour : Z;
  minute : Z;
  second : Z
}.

Definition _MAXORDINAL : Z := 3652059.

Definition _DAYS_IN_MONTH : list Z :=
  [-1; 31; 28; 31; 30; 31; 30; 31; 31; 30; 31; 30; 31].

Definition _DAYS_BEFORE_MONTH : list Z :=
  [-1; 0; 31; 59; 90; 120; 151; 181; 212; 243; 273; 304; 334].

Definition index (l : list Z) (i : Z) : Z := nth (Z.to_nat i) l 0.

Definition _is_leap (y : Z) : bool :=
  ((y mod 4 =? 0) && (negb (y mod 100 =? 0) || (y mod 400 =? 0)))%bool.

Definition _days_before_year (year : Z) : Z :=
  let y := year - 1 in
  y * 365 + y / 4 - y / 100 + y / 400.

Definition _days_in_month (year month : Z) : Z :=
  if ((month =? 2) && _is_leap year)%bool then 29
  else index _DAYS_IN_MONTH month.

Definition _days_before_month (year month : Z) : Z :=
  index _DAYS_BEFORE_MONTH month
  + (if ((2 <? month) && _is_leap year)%bool then 1 else 0).

Definition _ymd2ord (year month day : Z) : Z :=
  _days_before_year year + _days_before_month year month + day.

Definition _DI400Y : Z := 146097.
Definition _DI100Y : Z := 36524.
Definition _DI4Y : Z := 1461.

Definition _ord2ymd (n : Z) : Z * Z * Z :=
  let n := n - 1 in
  let n400 := n / _DI400Y in
  let n := n mod _DI400Y in
  let year := n400 * 400 + 1 in
  let n100 := n / _DI100Y in
  let n := n mod _DI100Y in
  let n4 := n / _DI4Y in
  let n := n mod _DI4Y in
  let n1 := n / 365 in
  let n := n mod 365 in
  let year := year + (n100 * 100 + n4 * 4 + n1) in
  if ((n1 =? 4) || (n100 =? 4))%bool then (year - 1, 12, 31)
  else
    let leapyear := ((n1 =? 3) && (negb (n4 =? 24) || (n100 =? 3)))%bool in
    let month := Z.shiftr (n + 50) 5 in
    let preceding :=
      index _DAYS_BEFORE_MONTH month
      + (if ((2 <? month) && leapyear)%bool then 1 else 0) in
    if n <? preceding then
      let month := month - 1 in
      let preceding :=
        preceding
        - (index _DAYS_IN_MONTH month
           + (if ((month =? 2) && leapyear)%bool then 1 else 0)) in
      (year, month, n - preceding + 1)
    else (year, month, n - preceding + 1).

(** The month and the day of the year's day [n] (from zero), as the end of
    [_ord2ymd] finds them. *)
Definition month_day (leapyear : bool) (n : Z) : Z * Z :=
  let month := Z.shiftr (n + 50) 5 in
  let preceding :=
    index _DAYS_BEFORE_MONTH month
    + (if ((2 <? month) && leapyear)%bool then 1 else 0) in
  if n <? preceding then
    let month := month - 1 in
    let preceding :=
      preceding
      - (index _DAYS_IN_MONTH month
         + (if ((month =? 2) && leapyear)%bool then 1 else 0)) in
    (month, n - preceding + 1)
  else (month, n - preceding + 1).

(** [f] holds of the [p] numbers from [lo] on. *)
Fixpoint forall_range (f : Z -> bool) (lo : Z) (p : positive) : bool :=
  match p with
  | xH => f lo
  | xO p' => (forall_range f lo p' && forall_range f (lo + Zpos p') p')%bool
  | xI p' =>
      (f lo && forall_range f (lo + 1) p'
       && forall_range f (lo + 1 + Zpos p') p')%bool
  end.

(** [month_day] finds a month and a day of that month, and the days before
    that month and the day count up to the day of the year. *)
Definition check_month_day (leapyear : bool) (n : Z) : bool :=
  let '(m, d) := month_day leapyear n in
  ((1 <=? m) && (m <=? 12) && (1 <=? d)
   && (d <=? (if ((m =? 2) && leapyear)%bool then 29
              else index _DAYS_IN_MONTH m))
   && (index _DAYS_BEFORE_MONTH m
       + (if ((2 <? m) && leapyear)%bool then 1 else 0) + d =? n + 1))%bool.

(** [d.toordinal()] *)
Definition toordinal (d : datetime) : Z := _ymd2ord (year d) (month d) (day d).

(** The constructor [datetime(year, month, day, hour, minute, second)] with
    its range checks. *)
Definition datetime_new (y mo d h mi s : Z) : result datetime :=
  if ((1 <=? y) && (y <=? 9999) && (1 <=? mo) && (mo <=? 12)
      && (1 <=? d) && (d <=? _days_in_month y mo)
      && (0 <=? h) && (h <=? 23) && (0 <=? mi) && (mi <=? 59)
      && (0 <=? s) && (s <=? 59))%bool
  then Ok (mk_datetime y mo d h mi s)
  else Raise ValueError.

(** The fields of a date-time are in the ranges the constructor checks. *)
Definition valid_datetime (t : datetime) : Prop :=
  1 <= year t <= 9999 /\ 1 <= month t <= 12
  /\ 1 <= day t <= _days_in_month (year t) (month t)
  /\ 0 <= hour t <= 23 /\ 0 <= minute t <= 59 /\ 0 <= second t <= 59.

(** A normalised [timedelta]: [0 <= seconds < 86400]. *)
Record timedelta : Type := mk_timedelta {
  days : Z;
  seconds : Z
}.

(** [timedelta(days, seconds=s)], which refuses more than 999999999 days. *)
Definition timedelta_new (d s : Z) : result timedelta :=
  let d := d + s / 86400 in
  let s := s mod 86400 in
  if Z.abs d <=? 999999999 then Ok (mk_timedelta d s) else Raise OverflowError.

(** [datetime.__add__]: through the ordinal of the date and back. *)
Definition datetime_add (t : datetime) (other : timedelta) : result datetime :=
  self <- timedelta_new (toordinal t)
                        (hour t * 3600 + minute t * 60 + second t) ;;
  delta <- timedelta_new (days self + days other)
                         (seconds self + seconds other) ;;
  let hour := seconds delta / 3600 in
  let rem := seconds delta mod 3600 in
  let minute := rem / 60 in
  let second := rem mod 60 in
  if ((0 <? days delta) && (days delta <=? _MAXORDINAL))%bool then
    let '(y, m, d) := _ord2ymd (days delta) in
    Ok (mk_datetime y m d hour minute second)
  else Raise OverflowError.

(** ** [datetime.strptime] with the format [P1_TIME_FMT]

    [_strptime] turns the format into a regular expression, one group per
    directive, each group an ordered choice of fixed-length alternatives.
    The expression is matched with backtracking from the start of the text
    (first alternative first); the match it finds must then cover the whole
    text. *)

Definition charclass : Type := ascii -> bool.

Definition chr (a : ascii) : charclass := Ascii.eqb a.
Definition rng (a b : ascii) : charclass :=
  in_range (nat_of_ascii a) (nat_of_ascii b).

(** One alternative: a sequence of character classes. *)
Fixpoint match_seq (cs : list charclass) (s : string)
  : option (string * string) :=
  match cs with
  | [] => Some (EmptyString, s)
  | f :: cs' =>
      match s with
      | String c r =>
          if f c then
            match match_seq cs' r with
            | Some (a, b) => Some (String c a, b)
            | None => None
            end
          else None
      | EmptyString => None
      end
  end.

(** A sequence of groups: the captured texts and the rest of the text. *)
Fixpoint match_groups (gs : list (list (list charclass))) (s : string)
  : option (list string * string) :=
  match gs with
  | [] => Some ([], s)
  | g :: gs' =>
      (fix try_alts (alts : list (list charclass)) :=
         match alts with
         | [] => None
         | a :: alts' =>
             match match_seq a s with
             | Some (m, r) =>
                 match match_groups gs' r with
                 | Some (ms, r') => Some (m :: ms, r')
                 | None => try_alts alts'
                 end
             | None => try_alts alts'
             end
         end) g
  end.

(** [%y]: [\d\d] *)
Definition re_y : list (list charclass) := [[is_digit; is_digit]].
(** [%m]: [1[0-2]|0[1-9]|[1-9]] *)
Definition re_m : list (list charclass) :=
  [[chr "1"; rng "0" "2"]; [chr "0"; rng "1" "9"]; [rng "1" "9"]].
(** [%d]: [3[0-1]|[1-2]\d|0[1-9]|[1-9]| [1-9]] *)
Definition re_d : list (list charclass) :=
  [[chr "3"; rng "0" "1"]; [rng "1" "2"; is_digit]; [chr "0"; rng "1" "9"];
   [rng "1" "9"]; [chr " "; rng "1" "9"]].
(** [%H]: [2[0-3]|[0-1]\d|\d] *)
Definition re_H : list (list charclass) :=
  [[chr "2"; rng "0" "3"]; [rng "0" "1"; is_digit]; [is_digit]].
(** [%M]: [[0-5]\d|\d] *)
Definition re_M : list (list charclass) :=
  [[rng "0" "5"; is_digit]; [is_digit]].
(** [%S]: [6[0-1]|[0-5]\d|\d] *)
Definition re_S : list (list charclass) :=
  [[chr "6"; rng "0" "1"]; [rng "0" "5"; is_digit]; [is_digit]].

(** Timestamp format used in P1: ["%y%m%d%H%M%S"] *)
Definition P1_TIME_FMT : list (list (list charclass)) :=
  [re_y; re_m; re_d; re_H; re_M; re_S].

(** [datetime.datetime.strptime(data_string, P1_TIME_FMT)].  A two-digit
    year up to 68 is in the 2000s, from 69 on in the 1900s.  No match,
    unconverted text, a day the month does not have and a second above 59
    all raise [ValueError]. *)
Definition strptime (data_string : string) : result datetime :=
  match match_groups P1_TIME_FMT data_string with
  | Some ([g_y; g_m; g_d; g_H; g_M; g_S], EmptyString) =>
      y <- int_ g_y ;;
      let year := if y <=? 68 then y + 2000 else y + 1900 in
      month <- int_ g_m ;;
      day <- int_ g_d ;;
      hour <- int_ g_H ;;
      minute <- int_ g_M ;;
      second <- int_ g_S ;;
      datetime_new year month day hour minute second
  | _ => Raise ValueError
  end.

(** ** The line patterns of [p1.py] *)

(** [regex_p1_header]: [^/ISK5.*$]; the dot matches anything but a
    newline. *)
Definition regex_p1_header (line : string) : bool :=
  match lit "/ISK5" line with
  | Some r => dollar (snd (span (fun c => negb (Ascii.eqb c newline)) r))
  | None => false
  end.

(** [regex_p1_crc]: [^\!(?P<crc>[A-F0-9]{4})$]; the group [crc]. *)
Definition regex_p1_crc (line : string) : option string :=
  match lit "!" line with
  | Some r =>
      match exactly 4 is_upper_hex r with
      | Some (crc, r) => if dollar r then Some crc else None
      | None => None
      end
  | None => None
  end.

(** [(?P<timestamp>\d+)(?P<dst>[WS])\)] followed by [tail]: the groups
    [timestamp] and [dst] and what [tail] makes of the rest. *)
Definition stamped {A : Type} (tail : string -> option A) (s : string)
  : option (string * string * A) :=
  match many1 is_digit s with
  | Some (timestamp, r) =>
      match one is_dst_flag r with
      | Some (dst, r) =>
          match lit ")" r with
          | Some r =>
              match tail r with
              | Some a => Some (timestamp, dst, a)
              | None => None
              end
          | None => None
          end
      | None => None
      end
  | None => None
  end.

Definition at_end (s : string) : option unit :=
  if dollar s then Some tt else None.

(** [(?P<g>\d+\.\d+)] followed by the literal [unit_] and [$]: the text of
    the group. *)
Definition measured (unit_ : string) (s : string) : option string :=
  match decimal s with
  | Some (ip, fp, r) =>
      match lit unit_ r with
      | Some r => if dollar r then Some (ip ++ "." ++ fp)%string else None
      | None => None
      end
  | None => None
  end.

(** [regex_p1_timestamp]:
    [^0-0:1\.0\.0\((?P<timestamp>\d+)(?P<dst>[WS])\)$] *)
Definition regex_p1_timestamp (line : string) : option (string * string) :=
  match lit "0-0:1.0.0(" line with
  | Some r =>
      match stamped at_end r with
      | Some (timestamp, dst, _) => Some (timestamp, dst)
      | None => None
      end
  | None => None
  end.

(** [regex_current_kwatt]: [^1-0:1\.7\.0\((?P<kwatt>\d+\.\d+)\*kW\)$] *)
Definition regex_current_kwatt (line : string) : option string :=
  match lit "1-0:1.7.0(" line with
  | Some r => measured "*kW)" r
  | None => None
  end.

(** [regex_tariff1_total]: [^1-0:1\.8\.1\((?P<kwh>\d+\.\d+)\*kWh\)$] *)
Definition regex_tariff1_total (line : string) : option string :=
  match lit "1-0:1.8.1(" line with
  | Some r => measured "*kWh)" r
  | None => None
  end.

(** [regex_tariff2_total]: [^1-0:1\.8\.2\((?P<kwh>\d+\.\d+)\*kWh\)$] *)
Definition regex_tariff2_total (line : string) : option string :=
  match lit "1-0:1.8.2(" line with
  | Some r => measured "*kWh)" r
  | None => None
  end.

(** [regex_l1_voltage]: [^1-0:32\.7\.0\((?P<voltage>\d+\.\d+)\*V\)$] *)
Definition regex_l1_voltage (line : string) : option string :=
  match lit "1-0:32.7.0(" line with
  | Some r => measured "*V)" r
  | None => None
  end.

(** [regex_gas_total]:
    [^0-1:24\.2\.1\((?P<timestamp>\d+)(?P<dst>[WS])\)\((?P<gas>\d+\.\d+)\*m3\)$];
    the groups [timestamp], [dst] and [gas]. *)
Definition regex_gas_total (line : string)
  : option (string * string * string) :=
  match lit "0-1:24.2.1(" line with
  | Some r =>
      stamped (fun r => match lit "(" r with
                        | Some r => measured "*m3)" r
                        | None => None
                        end) r
  | None => None
  end.

(** ** The program *)

Definition influxdb_org : string := "".
Definition influxdb_highres_bucket : string := "p1_hr".
Definition influxdb_lowres_bucket : string := "p1_lr".

(** P1 message should never be more than this number of lines *)
Definition P1_MSG_LIMIT : nat := 100.

(** [class P1Data]: every field defaults to [None]. *)
Record P1Data : Type := mk_P1Data {
  timestamp : option datetime;
  watt : option float;
  tariff1 : option float;
  tariff2 : option float;
  voltage : option float;
  gas : option float;
  gas_timestamp : option datetime
}.

Definition P1Data_ : P1Data := mk_P1Data None None None None None None None.

Definition set_timestamp (v : datetime) (p : P1Data) : P1Data :=
  mk_P1Data (Some v) (watt p) (tariff1 p) (tariff2 p) (voltage p) (gas p)
            (gas_timestamp p).
Definition set_watt (v : float) (p : P1Data) : P1Data :=
  mk_P1Data (timestamp p) (Some v) (tariff1 p) (tariff2 p) (voltage p) (gas p)
            (gas_timestamp p).
Definition set_tariff1 (v : float) (p : P1Data) : P1Data :=
  mk_P1Data (timestamp p) (watt p) (Some v) (tariff2 p) (voltage p) (gas p)
            (gas_timestamp p).
Definition set_tariff2 (v : float) (p : P1Data) : P1Data :=
  mk_P1Data (timestamp p) (watt p) (tariff1 p) (Some v) (voltage p) (gas p)
            (gas_timestamp p).
Definition set_voltage (v : float) (p : P1Data) : P1Data :=
  mk_P1Data (timestamp p) (watt p) (tariff1 p) (tariff2 p) (Some v) (gas p)
            (gas_timestamp p).
Definition set_gas (v : float) (p : P1Data) : P1Data :=
  mk_P1Data (timestamp p) (watt p) (tariff1 p) (tariff2 p) (voltage p) (Some v)
            (gas_timestamp p).
Definition set_gas_timestamp (v : datetime) (p : P1Data) : P1Data :=
  mk_P1Data (timestamp p) (watt p) (tariff1 p) (tariff2 p) (voltage p) (gas p)
            (Some v).

(** An [influxdb_client.Point] as its builder calls leave it. *)
Record Point : Type := mk_Point {
  measurement : string;
  tags : list (string * string);
  fields : list (string * option float);
  time : option datetime
}.

Definition Point_ (name : string) : Point := mk_Point name [] [] None.
Definition tag (k v : string) (p : Point) : Point :=
  mk_Point (measurement p) (tags p ++ [(k, v)])%list (fields p) (time p).
Definition field (k : string) (v : option float) (p : Point) : Point :=
  mk_Point (measurement p) (tags p) (fields p ++ [(k, v)])%list (time p).
Definition time_ (t : option datetime) (p : Point) : Point :=
  mk_Point (measurement p) (tags p) (fields p) t.

Inductive WritePrecision : Type := WritePrecision_S.

(** What the process does to the outside: calls on the InfluxDB writer and
    lines on standard output. *)
Inductive event : Type :=
| Write (bucket org : string) (record : list Point) (precision : WritePrecision)
| Flush
| PrintWritten (p1 : P1Data)
| Print (text : string).

(** A computation that leaves a trace of events and returns or raises. *)
Definition io (A : Type) : Type := (list event * result A)%type.

Definition io_ret {A : Type} (a : A) : io A := ([], Ok a).

Definition io_bind {A B : Type} (m : io A) (k : A -> io B) : io B :=
  match m with
  | (out, Ok a) => let (out', r) := k a in ((out ++ out')%list, r)
  | (out, Raise e) => (out, Raise e)
  end.

Definition emit (e : event) : io unit := ([e], Ok tt).

Definition lift {A : Type} (r : result A) : io A := ([], r).

Notation "x <~ m ;; k" := (io_bind m (fun x => k))
  (at level 61, m at next level, right associativity) : py_scope.
Notation "m >> k" := (io_bind m (fun _ => k))
  (at level 61, right associativity) : py_scope.

(** [t.second], where [t] may be [None]. *)
Definition attr_second (t : option datetime) : result Z :=
  match t with
  | Some t => Ok (second t)
  | None => Raise AttributeError
  end.

Section Program.

(** [time.timezone] and [time.altzone]: the offsets of local standard
    time and of local daylight-saving time, in seconds west of UTC. *)
Variables time_timezone time_altzone : Z.

(** Convert P1 timestring in local time to UTC datetime object *)
Definition p1_localtime_to_utc (timestring dstchar : string)
  : result datetime :=
  local <- strptime timestring ;;
  let offset :=
    if String.eqb dstchar "W" then time_timezone else time_altzone in
  delta <- timedelta_new 0 offset ;;
  datetime_add local delta.

(** The body of the [for] loop of [p1_data_from_lines]: the six patterns
    are tried one after the other on the line. *)
Definition p1_data_from_line (p1 : P1Data) (line : string) : result P1Data :=
  p1 <- match regex_p1_timestamp line with
        | Some (timestring, dst) =>
            t <- p1_localtime_to_utc timestring dst ;;
            Ok (set_timestamp t p1)
        | None => Ok p1
        end ;;
  p1 <- match regex_current_kwatt line with
        | Some kwatt =>
            v <- float_ kwatt ;;
            Ok (set_watt (float_mul v (float_of_int 1000)) p1)
        | None => Ok p1
        end ;;
  p1 <- match regex_tariff1_total line with
        | Some kwh => v <- float_ kwh ;; Ok (set_tariff1 v p1)
        | None => Ok p1
        end ;;
  p1 <- match regex_tariff2_total line with
        | Some kwh => v <- float_ kwh ;; Ok (set_tariff2 v p1)
        | None => Ok p1
        end ;;
  p1 <- match regex_l1_voltage line with
        | Some voltage => v <- float_ voltage ;; Ok (set_voltage v p1)
        | None => Ok p1
        end ;;
  match regex_gas_total line with
  | Some (timestring, dst, gas) =>
      t <- p1_localtime_to_utc timestring dst ;;
      let p1 := set_gas_timestamp t p1 in
      v <- float_ gas ;;
      Ok (set_gas v p1)
  | None => Ok p1
  end.

Fixpoint p1_data_from_lines_from (p1 : P1Data) (lines : list string)
  : result P1Data :=
  match lines with
  | [] => Ok p1
  | line :: lines =>
      p1 <- p1_data_from_line p1 line ;;
      p1_data_from_lines_from p1 lines
  end.

Definition p1_data_from_lines (lines : list string) : result P1Data :=
  p1_data_from_lines_from P1Data_ lines.

(** The tuple [points] of [add_p1_to_influxdb]. *)
Definition p1_points (p1 : P1Data) : list Point :=
  [ time_ (timestamp p1)
      (field "watt" (watt p1) (tag "reading" "power" (Point_ "electricity")));
    time_ (timestamp p1)
      (field "kwh" (tariff1 p1)
         (tag "reading" "tariff1" (Point_ "electricity")));
    time_ (timestamp p1)
      (field "kwh" (tariff2 p1)
         (tag "reading" "tariff2" (Point_ "electricity")));
    time_ (timestamp p1)
      (field "volt" (voltage p1)
         (tag "reading" "voltage" (Point_ "electricity")));
    time_ (gas_timestamp p1)
      (field "m3" (gas p1) (tag "reading" "usage" (Point_ "gas"))) ].

Definition add_p1_to_influxdb (p1 : P1Data) : io unit :=
  let points := p1_points p1 in
  (* Short retention / high-res bucket, store every measurement *)
  emit (Write influxdb_highres_bucket influxdb_org points WritePrecision_S) >>
  (* For long term / low-res bucket, only store once per minute *)
  s <~ lift (attr_second (timestamp p1)) ;;
  (if s =? 0
   then emit (Write influxdb_lowres_bucket influxdb_org points
                    WritePrecision_S)
   else io_ret tt) >>
  emit Flush >>
  emit (PrintWritten p1).

(** *** The read loop

    The process blocks in [meter.readline()] at two places: in the outer
    loop, looking for a header ([AwaitHeader]), and in the inner loop,
    with the lines collected so far in [p1_msg] ([Collecting]).  An
    exception ends the process ([Crashed]). *)
Inductive state : Type :=
| AwaitHeader
| Collecting (p1_msg : list string)
| Crashed (e : exn).

(** The test of the inner [while], and its [else] clause. *)
Definition while_head (p1_msg : list string) : state * list event :=
  if Nat.leb (List.length p1_msg) P1_MSG_LIMIT then (Collecting p1_msg, [])
  else (AwaitHeader,
        [Print "OOOP! Already expected to have seen the CRC message."]).

(** What one more line from the meter makes the process do, up to its
    next [readline]. *)
Definition step (st : state) (raw : string) : state * list event :=
  match st with
  | AwaitHeader =>
      let line := strip raw in
      if regex_p1_header line then while_head [] else (AwaitHeader, [])
  | Collecting p1_msg =>
      let line := strip raw in
      match regex_p1_crc line with
      | Some crc =>
          match (p1 <~ lift (p1_data_from_lines p1_msg) ;;
                 add_p1_to_influxdb p1) with
          | (out, Ok _) => (AwaitHeader, out)
          | (out, Raise e) => (Crashed e, out)
          end
      | None => while_head (p1_msg ++ [line])%list
      end
  | Crashed e => (Crashed e, [])
  end.

(** The process fed the lines the meter sends, one after the other. *)
Fixpoint run (st : state) (raws : list string) : state * list event :=
  match raws with
  | [] => (st, [])
  | raw :: raws =>
      let (st, out) := step st raw in
      let (st', out') := run st raws in
      (st', (out ++ out')%list)
  end.

End Program.

(** ** Observations on traces and date-times *)

(** The Readings reported as written, in the order of the trace. *)
Fixpoint routed (out : list event) : list P1Data :=
  match out with
  | [] => []
  | PrintWritten p1 :: out => p1 :: routed out
  | _ :: out => routed out
  end.

(** The lines printed besides the reports of written Readings. *)
Fixpoint complaints (out : list event) : list string :=
  match out with
  | [] => []
  | Print text :: out => text :: complaints out
  | _ :: out => complaints out
  end.

(** The place of a date-time on the time line, in seconds. *)
Definition instant (t : datetime) : Z :=
  toordinal t * 86400 + hour t * 3600 + minute t * 60 + second t.

(** ** Sample input: the telegram of the specification *)

Definition sample_header : string := "/ISK5\2M550E-1013".

Definition sample_body : list string :=
  [ "0-0:1.0.0(210214195440W)";
    "1-0:1.7.0(00.234*kW)";
    "1-0:1.8.1(000032.289*kWh)";
    "1-0:1.8.2(000016.064*kWh)";
    "1-0:32.7.0(235.2*V)";
    "0-1:24.2.1(210214195003W)(00026.800*m3)" ].

(** Two telegrams in a row, the second stamped one second before the
    first. *)
Definition regressing_stream : list string :=
  [ sample_header; "0-0:1.0.0(210214195441W)"; "1-0:1.7.0(00.234*kW)"; "!0000";
    sample_header; "0-0:1.0.0(210214195440W)"; "1-0:1.7.0(00.235*kW)"; "!0000" ].

(** A timestamp line with the thirtieth of February, then a power line. *)
Definition bad_date_body : list string :=
  [ "0-0:1.0.0(210230195440W)"; "1-0:1.7.0(00.234*kW)" ].

(** The sample telegram closed by a given trailer line. *)
Definition sample_telegram (trailer : string) : list string :=
  (sample_header :: sample_body ++ [trailer])%list.

Definition overrun_message : event :=
  Print "OOOP! Already expected to have seen the CRC message.".

(** ** What the extractor sees in a line, and what the buckets receive *)

Definition hit {A : Type} (o : option A) : nat :=
  match o with
  | Some _ => 1
  | None => 0
  end.

(** The number of the six patterns of [p1_data_from_lines] that match a
    line. *)
Definition pattern_hits (line : string) : nat :=
  (hit (regex_p1_timestamp line) + hit (regex_current_kwatt line)
   + hit (regex_tariff1_total line) + hit (regex_tariff2_total line)
   + hit (regex_l1_voltage line) + hit (regex_gas_total line))%nat.

(** What a pattern captures in the last of the lines it matches. *)
Fixpoint last_match {A : Type} (re : string -> option A) (lines : list string)
  : option A :=
  match lines with
  | [] => None
  | line :: lines =>
      match last_match re lines with
      | Some a => Some a
      | None => re line
      end
  end.

(** A field after some lines: when a capture is given, its conversion
    succeeded and its value is in the field; otherwise the field is as it
    was. *)
Definition field_from {A B : Type} (capture : option A)
    (convert : A -> result B) (old new : option B) : Prop :=
  match capture with
  | Some a => exists b : B, convert a = Ok b /\ new = Some b
  | None => new = old
  end.

(** The conversion of a power capture: kilowatt to watt. *)
Definition watt_of (kwatt : string) : result float :=
  v <- float_ kwatt ;; Ok (float_mul v (float_of_int 1000)).

(** [strptime] accepts the text. *)
Definition parses (timestring : string) : bool :=
  match strptime timestring with
  | Ok _ => true
  | Raise _ => false
  end.

(** The line carries no timestamp text that [strptime] refuses, be it
    captured by the timestamp pattern or by the gas pattern. *)
Definition stamp_ok (line : string) : bool :=
  (match regex_p1_timestamp line with
   | Some (timestring, _) => parses timestring
   | None => true
   end
   && match regex_gas_total line with
      | Some (timestring, _, _) => parses timestring
      | None => true
      end)%bool.

(** The records written to a bucket, in the order of the trace. *)
Fixpoint written_to (bucket : string) (out : list event)
  : list (list Point) :=
  match out with
  | [] => []
  | Write b _ record _ :: out =>
      if String.eqb b bucket then record :: written_to bucket out
      else written_to bucket out
  | _ :: out => written_to bucket out
  end.

(** The first point of a record is stamped on a full minute. *)
Definition on_the_minute (record : list Point) : bool :=
  match record with
  | p :: _ =>
      match time p with
      | Some t => second t =? 0
      | None => false
      end
  | [] => false
  end.

(** The buffer of the inner loop holds at most [P1_MSG_LIMIT] lines. *)
Definition within_limit (st : state) : Prop :=
  match st with
  | Collecting p1_msg => (List.length p1_msg <= P1_MSG_LIMIT)%nat
  | _ => True
  end.


(** Every character of the text is in the class. *)
Fixpoint all_chars (f : ascii -> bool) (s : string) : bool :=
  match s with
  | String c r => (f c && all_chars f r)%bool
  | EmptyString => true
  end.

(** ** Telegrams in a row *)

(** A telegram as the meter sends it: the header line, the lines of the
    body and the trailer line. *)
Record telegram : Type := mk_telegram {
  t_header : string;
  t_body : list string;
  t_trailer : string
}.

Definition telegram_lines (f : telegram) : list string :=
  (t_header f :: t_body f ++ [t_trailer f])%list.

(** The read loop takes the lines of the telegram for one frame: the first
    matches the header pattern, the last the trailer pattern, and between
    them stand at most [P1_MSG_LIMIT] lines that are no trailer. *)
Definition well_framed (f : telegram) : Prop :=
  regex_p1_header (strip (t_header f)) = true
  /\ (List.length (t_body f) <= P1_MSG_LIMIT)%nat
  /\ Forall (fun raw => regex_p1_crc (strip raw) = None) (t_body f)
  /\ regex_p1_crc (strip (t_trailer f)) <> None.

(** The two telegrams of [regressing_stream]. *)
Definition regressing_frames : list telegram :=
  [ mk_telegram sample_header
      ["0-0:1.0.0(210214195441W)"; "1-0:1.7.0(00.234*kW)"] "!0000";
    mk_telegram sample_header
      ["0-0:1.0.0(210214195440W)"; "1-0:1.7.0(00.235*kW)"] "!0000" ].

(** ** Writing a timestamp in the P1 format *)

Definition digit_char (d : Z) : ascii := ascii_of_nat (Z.to_nat (48 + d)).

(** A number below 100 on two digits. *)
Definition two_digits (v : Z) : string :=
  String (digit_char (v / 10)) (String (digit_char (v mod 10)) EmptyString).

(** [t.strftime(P1_TIME_FMT)]: year without century, month, day, hour,
    minute and second, two digits each. *)
Definition strftime (t : datetime) : string :=
  (two_digits (year t mod 100) ++ two_digits (month t) ++ two_digits (day t)
   ++ two_digits (hour t) ++ two_digits (minute t)
   ++ two_digits (second t))%string.

(** Among the alternatives of a group, the first that matches a text
    beginning with [c1 c2] is one of two characters. *)
Fixpoint first2 (alts : list (list charclass)) (c1 c2 : ascii) : bool :=
  match alts with
  | [f1; f2] :: alts' =>
      if (f1 c1 && f2 c2)%bool then true else first2 alts' c1 c2
  | _ => false
  end.

(** The number [v], written on two digits, is taken whole by the group and
    read back by [int]. *)
Definition check_two_digits (g : list (list charclass)) (v : Z) : bool :=
  (first2 g (digit_char (v / 10)) (digit_char (v mod 10))
   && is_digit (digit_char (v / 10)) && is_digit (digit_char (v mod 10))
   && match int_ (two_digits v) with
      | Ok w => w =? v
      | Raise _ => false
      end)%bool.

(** * Properties *)

(** ** The calendar *)

Lemma forall_range_spec (f : Z -> bool) (p : positive) :
  forall lo : Z, forall_range f lo p = true ->
  forall x : Z, lo <= x < lo + Zpos p -> f x = true.
Proof.
  induction p as [p IH|p IH|]; intros lo H x Hx; cbn [forall_range] in H.
  - apply andb_prop in H. destruct H as [H H2].
    apply andb_prop in H. destruct H as [H0 H1].
    destruct (Z.eq_dec x lo) as [->|Hne]; [exact H0|].
    destruct (Z_lt_ge_dec x (lo + 1 + Zpos p)).
    + apply (IH _ H1). lia.
    + apply (IH _ H2). lia.
  - apply andb_prop in H. destruct H as [H1 H2].
    destruct (Z_lt_ge_dec x (lo + Zpos p)).
    + apply (IH _ H1). lia.
    + apply (IH _ H2). lia.
  - assert (x = lo) by lia. subst. exact H.
Qed.

Lemma month_day_ok (leapyear : bool) (n : Z) :
  0 <= n < 365 -> check_month_day leapyear n = true.
Proof.
  intros Hn.
  assert (H : forall_range (check_month_day leapyear) 0 365 = true)
    by (destruct leapyear; vm_compute; reflexivity).
  apply (forall_range_spec _ _ _ H). lia.
Qed.

Lemma days_before_year_cycles (n400 n100 n4 n1 : Z) :
  0 <= n100 <= 3 -> 0 <= n4 <= 24 -> 0 <= n1 <= 3 ->
  _days_before_year (n400 * 400 + 1 + (n100 * 100 + n4 * 4 + n1))
  = 146097 * n400 + 36524 * n100 + 1461 * n4 + 365 * n1.
Proof.
  intros H100 H4 H1. unfold _days_before_year.
  Z.div_mod_to_equations. lia.
Qed.

Lemma is_leap_cycles (n400 n100 n4 n1 : Z) :
  0 <= n100 <= 3 -> 0 <= n4 <= 24 -> 0 <= n1 <= 3 ->
  _is_leap (n400 * 400 + 1 + (n100 * 100 + n4 * 4 + n1))
  = ((n1 =? 3) && (negb (n4 =? 24) || (n100 =? 3)))%bool.
Proof.
  intros H100 H4 H1. unfold _is_leap.
  repeat match goal with
         | |- context [?a =? ?b] => destruct (Z.eqb_spec a b)
         end; cbn; try reflexivity; exfalso;
    Z.div_mod_to_equations; lia.
Qed.

Ltac december :=
  change (index _DAYS_BEFORE_MONTH 12) with 334;
  change (index _DAYS_IN_MONTH 12) with 31;
  change (2 <? 12) with true; change (12 =? 2) with false;
  cbn [andb orb negb];
  repeat match goal with
         | |- context [?a =? ?b] =>
             destruct (Z.eqb_spec a b); try lia; cbn [andb orb negb]
         end.

Lemma ord2ymd_ymd2ord (n : Z) :
  let '(y, m, d) := _ord2ymd n in
  _ymd2ord y m d = n /\ 1 <= m <= 12 /\ 1 <= d <= _days_in_month y m.
Proof.
  unfold _ord2ymd.
  set (n0 := n - 1).
  set (n400 := n0 / _DI400Y). set (a := n0 mod _DI400Y).
  set (n100 := a / _DI100Y). set (b := a mod _DI100Y).
  set (n4 := b / _DI4Y). set (c := b mod _DI4Y).
  set (n1 := c / 365). set (r := c mod 365).
  assert (Hdec : n0 = 146097 * n400 + 36524 * n100 + 1461 * n4 + 365 * n1 + r
                 /\ 0 <= n100 <= 4 /\ 0 <= n4 <= 24 /\ 0 <= n1 <= 4
                 /\ 0 <= r < 365
                 /\ (n100 = 4 -> n4 = 0 /\ n1 = 0 /\ r = 0)
                 /\ (n1 = 4 -> r = 0 /\ n4 <= 23)).
  { subst n400 a n100 b n4 c n1 r. unfold _DI400Y, _DI100Y, _DI4Y.
    Z.div_mod_to_equations. lia. }
  destruct Hdec as [Hn0 [H100 [H4 [H1 [Hr [Hx100 Hx1]]]]]].
  clearbody n400 a n100 b n4 c n1 r.
  destruct (Z.eqb_spec n1 4) as [E1|E1]; cbn [orb].
  - (* last day of a four-year cycle *)
    destruct Hx1 as [Hr0 Hn4]; [exact E1|].
    assert (Hy : n400 * 400 + 1 + (n100 * 100 + n4 * 4 + n1) - 1
                 = n400 * 400 + 1 + (n100 * 100 + n4 * 4 + 3)) by lia.
    assert (H100' : 0 <= n100 <= 3) by lia.
    rewrite Hy. unfold _ymd2ord, _days_before_month, _days_in_month.
    rewrite days_before_year_cycles, is_leap_cycles by lia.
    replace (n4 =? 24) with false by (symmetry; apply Z.eqb_neq; lia).
    december. subst n0. lia.
  - destruct (Z.eqb_spec n100 4) as [E100|E100].
    + (* last day of a four-hundred-year cycle *)
      destruct Hx100 as [Hn4 [Hn1 Hr0]]; [exact E100|].
      assert (Hy : n400 * 400 + 1 + (n100 * 100 + n4 * 4 + n1) - 1
                   = n400 * 400 + 1 + (3 * 100 + 24 * 4 + 3)) by lia.
      rewrite Hy. unfold _ymd2ord, _days_before_month, _days_in_month.
      rewrite days_before_year_cycles, is_leap_cycles by lia.
      december. subst n0. lia.
    + pose proof (month_day_ok
                    ((n1 =? 3) && (negb (n4 =? 24) || (n100 =? 3)))%bool r Hr)
        as Hmd.
      unfold check_month_day, month_day in Hmd.
      set (leapyear := ((n1 =? 3) && (negb (n4 =? 24) || (n100 =? 3)))%bool)
        in *.
      unfold _ymd2ord, _days_before_month, _days_in_month.
      destruct (r <? _) eqn:Hlt.
      * rewrite days_before_year_cycles, is_leap_cycles by lia.
        fold leapyear.
        repeat (apply andb_prop in Hmd; destruct Hmd as [Hmd ?]).
        subst n0. split; [|split]; lia.
      * rewrite days_before_year_cycles, is_leap_cycles by lia.
        fold leapyear.
        repeat (apply andb_prop in Hmd; destruct Hmd as [Hmd ?]).
        subst n0. split; [|split]; lia.
Qed.

(** ** Time stamps *)

Lemma Ok_inj {A : Type} (a b : A) : Ok a = Ok b -> a = b.
Proof. intros H. injection H. auto. Qed.

Lemma digit_not_space (c : ascii) : is_digit c = true -> isspace c = false.
Proof.
  destruct c as [[] [] [] [] [] [] [] []]; intros H;
    solve [reflexivity | discriminate H].
Qed.

Lemma digit_value_range (c : ascii) :
  is_digit c = true -> 0 <= digit_value c <= 9.
Proof.
  destruct c as [[] [] [] [] [] [] [] []]; intros H;
    solve [discriminate H | vm_compute; split; discriminate].
Qed.

(** The value of two digits. *)
Lemma int_two_digits (c1 c2 : ascii) (v : Z) :
  is_digit c1 = true -> is_digit c2 = true ->
  int_ (String c1 (String c2 EmptyString)) = Ok v ->
  0 <= v <= 99.
Proof.
  intros H1 H2. unfold int_, strip. cbn [lstrip].
  rewrite (digit_not_space c1 H1). cbn [rstrip].
  rewrite (digit_not_space c2 H2). cbn [all_digits].
  rewrite H1, H2. cbn [andb digits_value]. intros E.
  apply Ok_inj in E.
  pose proof (digit_value_range c1 H1). pose proof (digit_value_range c2 H2).
  lia.
Qed.

(** A group with a single alternative. *)
Lemma match_groups_single (a : list charclass)
    (gs : list (list (list charclass))) (s : string) (ms : list string)
    (r : string) :
  match_groups ([a] :: gs) s = Some (ms, r) ->
  exists (m r' : string) (ms' : list string),
    match_seq a s = Some (m, r') /\ match_groups gs r' = Some (ms', r)
    /\ ms = m :: ms'.
Proof.
  cbn [match_groups].
  destruct (match_seq a s) as [[m r']|] eqn:Ea; [|discriminate].
  destruct (match_groups gs r') as [[ms' r'']|] eqn:Eg; [|discriminate].
  intros E. inversion E; subst. exists m, r', ms'.
  split; [reflexivity|]. split; [exact Eg|reflexivity].
Qed.

Lemma datetime_new_valid (y mo d h mi s : Z) (t : datetime) :
  datetime_new y mo d h mi s = Ok t ->
  t = mk_datetime y mo d h mi s /\ valid_datetime t.
Proof.
  unfold datetime_new.
  destruct (_ && _)%bool eqn:E; [|discriminate].
  intros H. inversion H; subst. split; [reflexivity|].
  repeat (apply andb_prop in E; destruct E as [E ?]).
  unfold valid_datetime. cbn [year month day hour minute second]. lia.
Qed.

(** What [strptime] returns is a date-time the constructor accepts, of a
    year from 1969 to 2068. *)
Lemma strptime_valid (data_string : string) (t : datetime) :
  strptime data_string = Ok t ->
  valid_datetime t /\ 1969 <= year t <= 2068.
Proof.
  unfold strptime.
  destruct (match_groups P1_TIME_FMT data_string) as [[ms r]|] eqn:E;
    [|discriminate].
  unfold P1_TIME_FMT, re_y in E.
  apply match_groups_single in E.
  destruct E as [g_y [r' [ms' [Hy [_ ->]]]]].
  destruct ms' as [|g_m [|g_d [|g_H [|g_M [|g_S [|? ?]]]]]];
    try discriminate.
  destruct r; [|discriminate].
  assert (Hg : exists c1 c2, g_y = String c1 (String c2 EmptyString)
                             /\ is_digit c1 = true /\ is_digit c2 = true).
  { destruct data_string as [|c1 [|c2 rest]]; cbn [match_seq] in Hy.
    - discriminate Hy.
    - destruct (is_digit c1); discriminate Hy.
    - destruct (is_digit c1) eqn:H1; [|discriminate Hy].
      destruct (is_digit c2) eqn:H2; [|discriminate Hy].
      inversion Hy; subst. exists c1, c2.
      split; [reflexivity|]. split; assumption. }
  destruct Hg as [c1 [c2 [-> [H1 H2]]]].
  unfold bind.
  destruct (int_ (String c1 (String c2 EmptyString))) as [y|] eqn:Ey;
    [|discriminate].
  apply (int_two_digits c1 c2 y H1 H2) in Ey.
  destruct (int_ g_m); [|discriminate]. destruct (int_ g_d); [|discriminate].
  destruct (int_ g_H); [|discriminate]. destruct (int_ g_M); [|discriminate].
  destruct (int_ g_S); [|discriminate].
  intros H. apply datetime_new_valid in H. destruct H as [-> Hv].
  split; [exact Hv|]. cbn [year].
  destruct (Z.leb_spec y 68); lia.
Qed.

Lemma days_before_month_range (y m : Z) :
  1 <= m <= 12 -> 0 <= _days_before_month y m <= 335.
Proof.
  intros Hm. unfold _days_before_month.
  assert (H : m = 1 \/ m = 2 \/ m = 3 \/ m = 4 \/ m = 5 \/ m = 6 \/ m = 7
              \/ m = 8 \/ m = 9 \/ m = 10 \/ m = 11 \/ m = 12) by lia.
  repeat (destruct H as [->|H]); try subst m;
    destruct (_is_leap y); vm_compute; split; discriminate.
Qed.

Lemma days_in_month_range (y m : Z) :
  1 <= m <= 12 -> 28 <= _days_in_month y m <= 31.
Proof.
  intros Hm. unfold _days_in_month.
  assert (H : m = 1 \/ m = 2 \/ m = 3 \/ m = 4 \/ m = 5 \/ m = 6 \/ m = 7
              \/ m = 8 \/ m = 9 \/ m = 10 \/ m = 11 \/ m = 12) by lia.
  repeat (destruct H as [->|H]); try subst m;
    destruct (_is_leap y); vm_compute; split; discriminate.
Qed.

(** The ordinal of a date determines its year up to the days of a year. *)
Lemma toordinal_range (t : datetime) :
  valid_datetime t ->
  _days_before_year (year t) < toordinal t
  <= _days_before_year (year t) + 366.
Proof.
  intros [_ [Hm [Hd _]]]. unfold toordinal, _ymd2ord.
  pose proof (days_before_month_range (year t) (month t) Hm).
  pose proof (days_in_month_range (year t) (month t) Hm).
  lia.
Qed.

Lemma days_before_year_range (y : Z) :
  (y <= 0 -> _days_before_year y + 366 <= 0)
  /\ (1 <= y <= 9999 -> 0 <= _days_before_year y <= 3651694)
  /\ (10000 <= y -> 3652059 <= _days_before_year y)
  /\ (y <= 1967 -> _days_before_year y + 366 <= 718432)
  /\ (2070 <= y -> 755687 <= _days_before_year y)
  /\ (1969 <= y <= 2068 -> 718797 <= _days_before_year y <= 754956).
Proof.
  unfold _days_before_year. repeat split; intros; Z.div_mod_to_equations; lia.
Qed.

(** [datetime.__add__] moves a date-time along the time line by the days
    and seconds of the [timedelta], whenever the day it arrives at is one
    of the days that have an ordinal. *)
Lemma datetime_add_spec (t : datetime) (other : timedelta) :
  valid_datetime t ->
  0 <= seconds other < 86400 ->
  0 < (instant t + days other * 86400 + seconds other) / 86400
    <= _MAXORDINAL ->
  exists r : datetime,
    datetime_add t other = Ok r
    /\ instant r = instant t + days other * 86400 + seconds other
    /\ valid_datetime r
    /\ _days_before_year (year r)
       < (instant t + days other * 86400 + seconds other) / 86400
       <= _days_before_year (year r) + 366.
Proof.
  intros Hv Hs Hrange.
  pose proof (toordinal_range t Hv) as Hord.
  destruct Hv as [Hy [Hmo [Hd [Hh [Hmi Hse]]]]].
  pose proof (days_before_year_range (year t)) as [_ [Hdby _]].
  specialize (Hdby Hy).
  unfold instant in *. unfold datetime_add, _MAXORDINAL in *.
  set (ord := toordinal t) in *.
  set (secs := hour t * 3600 + minute t * 60 + second t) in *.
  assert (Hsecs : 0 <= secs < 86400) by (subst secs; lia).
  replace (ord * 86400 + hour t * 3600 + minute t * 60 + second t)
    with (ord * 86400 + secs) in * by (subst secs; lia).
  set (total := ord * 86400 + secs + days other * 86400 + seconds other) in *.
  unfold timedelta_new at 1.
  assert (E1 : ord + secs / 86400 = ord)
    by (Z.div_mod_to_equations; lia).
  assert (E2 : secs mod 86400 = secs)
    by (Z.div_mod_to_equations; lia).
  rewrite E1, E2.
  replace (Z.abs ord <=? 999999999) with true
    by (symmetry; apply Z.leb_le; lia).
  cbn [bind days seconds]. unfold timedelta_new.
  assert (E3 : ord + days other + (secs + seconds other) / 86400
               = total / 86400)
    by (subst total; Z.div_mod_to_equations; lia).
  assert (E4 : (secs + seconds other) mod 86400 = total mod 86400)
    by (subst total; Z.div_mod_to_equations; lia).
  rewrite E3, E4.
  set (dd := total / 86400) in *. set (ss := total mod 86400) in *.
  assert (Hss : 0 <= ss < 86400 /\ total = dd * 86400 + ss)
    by (subst dd ss; Z.div_mod_to_equations; lia).
  clearbody dd ss.
  replace (Z.abs dd <=? 999999999) with true
    by (symmetry; apply Z.leb_le; lia).
  cbn [bind days seconds].
  replace (0 <? dd) with true by (symmetry; apply Z.ltb_lt; lia).
  replace (dd <=? 3652059) with true by (symmetry; apply Z.leb_le; lia).
  cbn [andb].
  pose proof (ord2ymd_ymd2ord dd) as Hrt.
  destruct (_ord2ymd dd) as [[y m] d].
  destruct Hrt as [Hrt [Hm' Hd']].
  eexists. split; [reflexivity|].
  assert (Hr : _days_before_year y < dd <= _days_before_year y + 366).
  { pose proof (days_before_month_range y m Hm').
    pose proof (days_in_month_range y m Hm').
    unfold _ymd2ord in Hrt. lia. }
  split; [|split; [|exact Hr]].
  - unfold toordinal. cbn [year month day hour minute second].
    rewrite Hrt. Z.div_mod_to_equations. lia.
  - unfold valid_datetime. cbn [year month day hour minute second].
    pose proof (days_before_year_range y) as [Hlow [_ [Hhigh _]]].
    repeat split; try lia; Z.div_mod_to_equations; lia.
Qed.

Section TimeStamps.

Variables tz az : Z.

(** The offset the flag of a timestamp selects. *)
Lemma localtime_to_utc_spec (timestring dstchar : string) (local : datetime) :
  strptime timestring = Ok local ->
  Z.abs (if String.eqb dstchar "W" then tz else az) <= 86400 ->
  exists utc : datetime,
    p1_localtime_to_utc tz az timestring dstchar = Ok utc
    /\ instant utc
       = instant local + (if String.eqb dstchar "W" then tz else az)
    /\ valid_datetime utc.
Proof.
  intros Hlocal Hoff. unfold p1_localtime_to_utc. rewrite Hlocal.
  cbn [bind]. set (offset := if String.eqb dstchar "W" then tz else az) in *.
  destruct (strptime_valid _ _ Hlocal) as [Hv Hyear].
  pose proof (toordinal_range local Hv) as Hord.
  pose proof (days_before_year_range (year local))
    as [_ [_ [_ [_ [_ Hdby]]]]].
  specialize (Hdby Hyear).
  unfold timedelta_new.
  replace (Z.abs (0 + offset / 86400) <=? 999999999) with true
    by (symmetry; apply Z.leb_le; Z.div_mod_to_equations; lia).
  cbn [bind].
  assert (Hsec : 0 <= hour local * 3600 + minute local * 60 + second local
                 < 86400)
    by (destruct Hv as [_ [_ [_ [? [? ?]]]]]; lia).
  destruct (datetime_add_spec local
              (mk_timedelta (0 + offset / 86400) (offset mod 86400)) Hv)
    as [utc [Hadd [Hinst [Hvalid _]]]].
  - cbn [seconds]. Z.div_mod_to_equations. lia.
  - cbn [days seconds]. unfold instant, _MAXORDINAL.
    Z.div_mod_to_equations. lia.
  - exists utc. split; [exact Hadd|]. split; [|exact Hvalid].
    rewrite Hinst. cbn [days seconds]. Z.div_mod_to_equations. lia.
Qed.

End TimeStamps.

(** C4: with offsets of at most a day, every timestamp that [strptime]
    accepts is moved by [time.timezone] when its flag is W and by
    [time.altzone] when it is S, whatever its date; and 210214195440 with
    flag W, read as 2021-02-14 19:54:40, lands [time.timezone] seconds from
    there. *)
Theorem flag_selects_offset (tz az : Z) :
  Z.abs tz <= 86400 ->
  Z.abs az <= 86400 ->
  (forall (timestring : string) (local : datetime),
     strptime timestring = Ok local ->
     exists utc_w utc_s : datetime,
       p1_localtime_to_utc tz az timestring "W" = Ok utc_w
       /\ instant utc_w = instant local + tz
       /\ p1_localtime_to_utc tz az timestring "S" = Ok utc_s
       /\ instant utc_s = instant local + az)
  /\ strptime "210214195440" = Ok (mk_datetime 2021 2 14 19 54 40)
  /\ (exists utc : datetime,
        p1_localtime_to_utc tz az "210214195440" "W" = Ok utc
        /\ instant utc = instant (mk_datetime 2021 2 14 19 54 40) + tz
        /\ valid_datetime utc).
Proof.
  intros Htz Haz. split; [|split].
  - intros timestring local Hlocal.
    destruct (localtime_to_utc_spec tz az timestring "W" local Hlocal Htz)
      as [utc_w [Ew [Iw _]]].
    destruct (localtime_to_utc_spec tz az timestring "S" local Hlocal Haz)
      as [utc_s [Es [Is _]]].
    exists utc_w, utc_s. repeat split; assumption.
  - vm_compute. reflexivity.
  - apply (localtime_to_utc_spec tz az "210214195440" "W").
    + vm_compute. reflexivity.
    + exact Htz.
Qed.

Lemma flag_selects_offset_witness :
  exists utc : datetime,
    p1_localtime_to_utc (-3600) (-7200) "210214195440" "W" = Ok utc
    /\ instant utc = instant (mk_datetime 2021 2 14 19 54 40) + -3600
    /\ valid_datetime utc.
Proof.
  refine (proj2 (proj2 (flag_selects_offset (-3600) (-7200) _ _)));
    vm_compute; discriminate.
Defined.

(** In the Netherlands ([time.timezone = -3600], [time.altzone = -7200]):
    the same wall time under both flags, and a timestamp that the offset
    takes over midnight into the day before. *)
Example utc_in_the_netherlands :
  p1_localtime_to_utc (-3600) (-7200) "210214195440" "W"
  = Ok (mk_datetime 2021 2 14 18 54 40)
  /\ p1_localtime_to_utc (-3600) (-7200) "210214195440" "S"
     = Ok (mk_datetime 2021 2 14 17 54 40)
  /\ p1_localtime_to_utc (-3600) (-7200) "210301003000" "W"
     = Ok (mk_datetime 2021 2 28 23 30 0).
Proof. repeat split; vm_compute; reflexivity. Qed.

(** How [strptime] reads texts that are not twelve digits. *)
Example strptime_irregular :
  strptime "2111111" = Ok (mk_datetime 2021 1 1 1 1 1)
  /\ strptime "21021419544" = Ok (mk_datetime 2021 2 14 19 54 4)
  /\ strptime "2102141954401" = Raise ValueError
  /\ strptime "210230195440" = Raise ValueError
  /\ strptime "210214195460" = Raise ValueError.
Proof. repeat split; vm_compute; reflexivity. Qed.

(** ** The read loop *)

Section ReadLoop.

Variables tz az : Z.

Lemma run_app (st : state) (xs ys : list string) :
  run tz az st (xs ++ ys)
  = let (st1, out1) := run tz az st xs in
    let (st2, out2) := run tz az st1 ys in
    (st2, (out1 ++ out2)%list).
Proof.
  revert st. induction xs as [|x xs IH]; intros st; simpl.
  - destruct (run tz az st ys); reflexivity.
  - destruct (step tz az st x) as [st1 o1]. rewrite IH.
    destruct (run tz az st1 xs) as [st2 o2].
    destruct (run tz az st2 ys) as [st3 o3].
    rewrite app_assoc. reflexivity.
Qed.

Lemma run_one (st : state) (x : string) :
  run tz az st [x] = step tz az st x.
Proof.
  simpl. destruct (step tz az st x) as [st1 o1].
  rewrite app_nil_r. reflexivity.
Qed.

(** A header line begins with a slash, a trailer line with an exclamation
    mark: no line is both. *)
Lemma header_not_crc (line : string) :
  regex_p1_header line = true -> regex_p1_crc line = None.
Proof.
  unfold regex_p1_header, regex_p1_crc.
  destruct line as [|c r]; cbn [lit]; [discriminate|].
  destruct (Ascii.eqb_spec "/" c) as [<-|]; [reflexivity|discriminate].
Qed.

(** While the buffer stays within the limit, lines that are no trailer
    are collected silently. *)
Lemma collect_lines (raws : list string) (p1_msg : list string) :
  Forall (fun raw => regex_p1_crc (strip raw) = None) raws ->
  (List.length p1_msg + List.length raws <= P1_MSG_LIMIT)%nat ->
  run tz az (Collecting p1_msg) raws
  = (Collecting (p1_msg ++ map strip raws), []).
Proof.
  revert p1_msg. induction raws as [|raw raws IH]; intros p1_msg Hall Hlen.
  - simpl. rewrite app_nil_r. reflexivity.
  - inversion Hall as [|? ? Hraw Hrest]; subst. cbn [List.length] in Hlen.
    cbn [run step]. rewrite Hraw. unfold while_head.
    assert (Hle : Nat.leb (List.length (p1_msg ++ [strip raw])) P1_MSG_LIMIT
                  = true).
    { apply Nat.leb_le. rewrite length_app. cbn [List.length]. lia. }
    rewrite Hle. rewrite IH.
    + cbn [map]. rewrite <- app_assoc. reflexivity.
    + assumption.
    + rewrite length_app. cbn [List.length]. lia.
Qed.

(** The line that takes the buffer beyond the limit ends the inner loop
    through its [else] clause. *)
Lemma overrun_step (p1_msg : list string) (raw : string) :
  regex_p1_crc (strip raw) = None ->
  List.length p1_msg = P1_MSG_LIMIT ->
  step tz az (Collecting p1_msg) raw = (AwaitHeader, [overrun_message]).
Proof.
  intros Hraw Hlen. cbn [step]. rewrite Hraw. unfold while_head.
  assert (Hgt : Nat.leb (List.length (p1_msg ++ [strip raw])) P1_MSG_LIMIT
                = false).
  { apply Nat.leb_gt. rewrite length_app, Hlen. cbn [List.length]. lia. }
  rewrite Hgt. reflexivity.
Qed.

Lemma header_step (raw : string) :
  regex_p1_header (strip raw) = true ->
  step tz az AwaitHeader raw = (Collecting [], []).
Proof. intros H. cbn [step]. rewrite H. reflexivity. Qed.

End ReadLoop.

(** C6: a header line followed by [P1_MSG_LIMIT + 1] lines, none of them a
    trailer, makes the loop report exactly one overrun and go back to
    awaiting a header; up to [P1_MSG_LIMIT] such lines are only collected;
    and the next header line starts a frame with an empty buffer. *)
Theorem overrun_after_limit (tz az : Z) (header : string) (raws : list string) :
  regex_p1_header (strip header) = true ->
  List.length raws = S P1_MSG_LIMIT ->
  Forall (fun raw => regex_p1_crc (strip raw) = None) raws ->
  run tz az AwaitHeader (header :: raws) = (AwaitHeader, [overrun_message])
  /\ (forall k : nat, (k <= P1_MSG_LIMIT)%nat ->
      run tz az AwaitHeader (header :: firstn k raws)
      = (Collecting (map strip (firstn k raws)), []))
  /\ (forall next : string, regex_p1_header (strip next) = true ->
      run tz az AwaitHeader (header :: raws ++ [next])
      = (Collecting [], [overrun_message])).
Proof.
  intros Hhdr Hlen Hall.
  assert (Hprefix : forall k : nat, (k <= P1_MSG_LIMIT)%nat ->
            run tz az AwaitHeader (header :: firstn k raws)
            = (Collecting (map strip (firstn k raws)), [])).
  { intros k Hk. cbn [run]. rewrite (header_step tz az header Hhdr).
    rewrite collect_lines.
    - reflexivity.
    - apply Forall_forall. intros x Hx.
      rewrite Forall_forall in Hall. apply Hall.
      rewrite <- (firstn_skipn k raws). apply in_or_app. left. exact Hx.
    - rewrite length_firstn. cbn [List.length]. lia. }
  assert (Hsplit : exists last : string,
            raws = (firstn P1_MSG_LIMIT raws ++ [last])%list
            /\ regex_p1_crc (strip last) = None).
  { pose proof (firstn_skipn P1_MSG_LIMIT raws) as Hfs.
    assert (Hsk : List.length (skipn P1_MSG_LIMIT raws) = 1%nat)
      by (rewrite length_skipn, Hlen; lia).
    destruct (skipn P1_MSG_LIMIT raws) as [|last [|? ?]]; try discriminate.
    exists last. split; [symmetry; exact Hfs|].
    rewrite Forall_forall in Hall. apply Hall.
    rewrite <- Hfs. apply in_or_app. right. left. reflexivity. }
  destruct Hsplit as [last [Hraws Hlast]].
  assert (Hfull : run tz az AwaitHeader (header :: raws)
                  = (AwaitHeader, [overrun_message])).
  { rewrite Hraws. change (header :: firstn P1_MSG_LIMIT raws ++ [last])%list
      with ((header :: firstn P1_MSG_LIMIT raws) ++ [last])%list.
    rewrite run_app, Hprefix by lia. rewrite run_one.
    rewrite overrun_step.
    - reflexivity.
    - exact Hlast.
    - rewrite length_map, length_firstn, Hlen. lia. }
  split; [exact Hfull|]. split; [exact Hprefix|].
  intros next Hnext.
  change (header :: raws ++ [next])%list with ((header :: raws) ++ [next])%list.
  rewrite run_app, Hfull, run_one, (header_step tz az next Hnext).
  reflexivity.
Qed.

Lemma overrun_after_limit_witness :
  run (-3600) (-7200) AwaitHeader
      (sample_header :: repeat "1-0:1.7.0(00.234*kW)" 101)
  = (AwaitHeader, [overrun_message]).
Proof.
  assert (Hall : Forall (fun raw => regex_p1_crc (strip raw) = None)
                        (repeat "1-0:1.7.0(00.234*kW)" 101)).
  { apply Forall_forall. intros x Hx. apply repeat_spec in Hx.
    rewrite Hx. reflexivity. }
  exact (proj1 (overrun_after_limit (-3600) (-7200) sample_header
                  (repeat "1-0:1.7.0(00.234*kW)" 101)
                  eq_refl eq_refl Hall)).
Defined.

(** C7, as stated, fails: a header line that arrives while a frame is
    being collected is appended to the buffer, the frame is not abandoned
    and no overrun is reported. *)
Lemma header_while_collecting_counterexample :
  regex_p1_header (strip sample_header) = true
  /\ step (-3600) (-7200) (Collecting ["0-0:1.0.0(210214195440W)"])
          sample_header
     = (Collecting ["0-0:1.0.0(210214195440W)"; sample_header], [])
  /\ step (-3600) (-7200) (Collecting ["0-0:1.0.0(210214195440W)"])
          sample_header
     <> (Collecting [], [overrun_message]).
Proof.
  split; [reflexivity|]. split; [reflexivity|].
  intros H. discriminate H.
Qed.

(** C7, amended: a header line that arrives while a frame is being
    collected is treated like every other line that is no trailer: it is
    appended to the buffer of the frame in progress, and only when the
    buffer already holds [P1_MSG_LIMIT] lines does the usual overrun follow. *)
Theorem header_while_collecting (tz az : Z) (p1_msg : list string)
    (raw : string) :
  regex_p1_header (strip raw) = true ->
  step tz az (Collecting p1_msg) raw
  = if Nat.ltb (List.length p1_msg) P1_MSG_LIMIT
    then (Collecting (p1_msg ++ [strip raw]), [])
    else (AwaitHeader, [overrun_message]).
Proof.
  intros Hhdr. cbn [step]. rewrite (header_not_crc _ Hhdr).
  unfold while_head. rewrite length_app. cbn [List.length].
  destruct (Nat.ltb_spec (List.length p1_msg) P1_MSG_LIMIT) as [Hlt|Hge].
  - assert (E : Nat.leb (List.length p1_msg + 1) P1_MSG_LIMIT = true)
      by (apply Nat.leb_le; lia).
    rewrite E. reflexivity.
  - assert (E : Nat.leb (List.length p1_msg + 1) P1_MSG_LIMIT = false)
      by (apply Nat.leb_gt; lia).
    rewrite E. reflexivity.
Qed.

Lemma header_while_collecting_witness :
  step (-3600) (-7200) (Collecting ["0-0:1.0.0(210214195440W)"]) sample_header
  = (Collecting ["0-0:1.0.0(210214195440W)"; sample_header], []).
Proof.
  apply (header_while_collecting (-3600) (-7200)
           ["0-0:1.0.0(210214195440W)"] sample_header).
  reflexivity.
Defined.

(** ** Routing *)

(** C2: with a timestamp present, routing succeeds; the five points (power,
    tariff1, tariff2 and voltage in the series electricity, gas usage in the
    series gas) are written to the high-resolution bucket in every case and
    to the low-resolution bucket exactly when the second of the timestamp is
    zero; nothing else is written. *)
Theorem routing_dual_rate (p1 : P1Data) (t : datetime) :
  timestamp p1 = Some t ->
  exists out : list event,
    add_p1_to_influxdb p1 = (out, Ok tt)
    /\ In (Write influxdb_highres_bucket influxdb_org (p1_points p1)
                 WritePrecision_S) out
    /\ (In (Write influxdb_lowres_bucket influxdb_org (p1_points p1)
                  WritePrecision_S) out <-> second t = 0)
    /\ (forall b o r p, In (Write b o r p) out ->
          (b = influxdb_highres_bucket \/ b = influxdb_lowres_bucket)
          /\ r = p1_points p1)
    /\ map (fun p => (measurement p, tags p, map fst (fields p)))
           (p1_points p1)
       = [ ("electricity", [("reading", "power")], ["watt"]);
           ("electricity", [("reading", "tariff1")], ["kwh"]);
           ("electricity", [("reading", "tariff2")], ["kwh"]);
           ("electricity", [("reading", "voltage")], ["volt"]);
           ("gas", [("reading", "usage")], ["m3"]) ]
    /\ map (fun p => map snd (fields p)) (p1_points p1)
       = [[watt p1]; [tariff1 p1]; [tariff2 p1]; [voltage p1]; [gas p1]].
Proof.
  intros Ht. unfold add_p1_to_influxdb. rewrite Ht.
  cbn [attr_second lift emit io_bind io_ret app].
  destruct (Z.eqb_spec (second t) 0) as [H0|Hn0].
  - eexists. split; [reflexivity|]. cbn [app].
    split; [left; reflexivity|].
    split; [split; [intros _; exact H0 | intros _; right; left; reflexivity]|].
    split; [|split; reflexivity].
    intros b o r p [H|[H|[H|[H|[]]]]]; inversion H; subst; auto.
  - eexists. split; [reflexivity|]. cbn [app].
    split; [left; reflexivity|].
    split.
    + split; [|intros H; contradiction].
      intros [H|[H|[H|[]]]]; discriminate H.
    + split; [|split; reflexivity].
      intros b o r p [H|[H|[H|[]]]]; inversion H; subst; auto.
Qed.

Lemma routing_dual_rate_witness :
  exists out : list event,
    add_p1_to_influxdb
      (mk_P1Data (Some (mk_datetime 2021 2 14 18 55 0)) None None None None
                 None None)
    = (out, Ok tt)
    /\ List.length out = 4%nat.
Proof.
  destruct (routing_dual_rate
              (mk_P1Data (Some (mk_datetime 2021 2 14 18 55 0)) None None None
                         None None None)
              (mk_datetime 2021 2 14 18 55 0) eq_refl) as [out [E _]].
  exists out. split; [exact E|].
  vm_compute in E. inversion E. reflexivity.
Defined.

(** C3 on the code: when the timestamp is absent, the points are written to
    the high-resolution bucket before the second of the timestamp is looked
    at, and only then does routing stop, with an [AttributeError]. *)
Theorem routing_without_timestamp (p1 : P1Data) :
  timestamp p1 = None ->
  add_p1_to_influxdb p1
  = ([Write influxdb_highres_bucket influxdb_org (p1_points p1)
            WritePrecision_S],
     Raise AttributeError).
Proof.
  intros Ht. unfold add_p1_to_influxdb. rewrite Ht. reflexivity.
Qed.

Lemma routing_without_timestamp_witness :
  add_p1_to_influxdb P1Data_
  = ([Write influxdb_highres_bucket influxdb_org (p1_points P1Data_)
            WritePrecision_S],
     Raise AttributeError).
Proof. exact (routing_without_timestamp P1Data_ eq_refl). Defined.

(** A telegram without a timestamp line, whatever its trailer: its points
    reach the high-resolution bucket and the process ends. *)
Example telegram_without_timestamp :
  run (-3600) (-7200) AwaitHeader
      [sample_header; "1-0:1.7.0(00.234*kW)"; "!AEB6"]
  = (Crashed AttributeError,
     [Write influxdb_highres_bucket influxdb_org
        (p1_points (mk_P1Data None (Some (Prim2SF 234%float))
                              None None None None None))
        WritePrecision_S]).
Proof. vm_compute. reflexivity. Qed.

(** ** The trailer *)

Lemma crc_not_header (line crc : string) :
  regex_p1_crc line = Some crc -> regex_p1_header line = false.
Proof.
  intros H. destruct (regex_p1_header line) eqn:E; [|reflexivity].
  rewrite (header_not_crc line E) in H. discriminate H.
Qed.

(** C1 on the code: the four hexadecimal digits of the trailer are read
    and never used; two streams that differ only in the digits of their
    last trailer line are handled alike, so no telegram is dropped for its
    checksum. *)
Theorem trailer_value_ignored (tz az : Z) (st : state) (raws : list string)
    (t1 t2 crc1 crc2 : string) :
  regex_p1_crc (strip t1) = Some crc1 ->
  regex_p1_crc (strip t2) = Some crc2 ->
  run tz az st (raws ++ [t1]) = run tz az st (raws ++ [t2]).
Proof.
  intros H1 H2. rewrite !run_app.
  destruct (run tz az st raws) as [st1 out1]. rewrite !run_one.
  destruct st1 as [|p1_msg|e]; cbn [step].
  - rewrite (crc_not_header _ _ H1), (crc_not_header _ _ H2). reflexivity.
  - rewrite H1, H2. reflexivity.
  - reflexivity.
Qed.

Lemma trailer_value_ignored_witness :
  run (-3600) (-7200) AwaitHeader (sample_telegram "!0000")
  = run (-3600) (-7200) AwaitHeader (sample_telegram "!FFFF").
Proof.
  exact (trailer_value_ignored (-3600) (-7200) AwaitHeader
           (sample_header :: sample_body) "!0000" "!FFFF" "0000" "FFFF"
           eq_refl eq_refl).
Defined.

(** The sample telegram is extracted and routed under either trailer. *)
Example sample_routed_under_any_trailer :
  map watt (routed (snd (run (-3600) (-7200) AwaitHeader
                           (sample_telegram "!0000"))))
  = [Some (Prim2SF 234%float)]
  /\ map watt (routed (snd (run (-3600) (-7200) AwaitHeader
                              (sample_telegram "!FFFF"))))
     = [Some (Prim2SF 234%float)].
Proof. split; vm_compute; reflexivity. Qed.

(** ** Extraction *)

(** What [span] returns: the text is split in two, the first part is in
    the class and the second does not begin in it. *)
Lemma span_spec (f : ascii -> bool) (s a b : string) :
  span f s = (a, b) ->
  s = (a ++ b)%string
  /\ span f a = (a, EmptyString)
  /\ match b with
     | String c _ => f c = false
     | EmptyString => True
     end.
Proof.
  revert a b. induction s as [|c s IH]; intros a b H; cbn [span] in H.
  - inversion H; subst. repeat split.
  - destruct (f c) eqn:Hc.
    + destruct (span f s) as [a' b'] eqn:Hs. inversion H; subst.
      destruct (IH a' b eq_refl) as [-> [Ha Hb]].
      split; [reflexivity|]. split; [|exact Hb].
      cbn [span]. rewrite Hc, Ha. reflexivity.
    + inversion H; subst. repeat split. exact Hc.
Qed.

(** A run of the class is found again when what follows does not begin in
    the class. *)
Lemma span_app (f : ascii -> bool) (a b : string) :
  span f a = (a, EmptyString) ->
  match b with
  | String c _ => f c = false
  | EmptyString => True
  end ->
  span f (a ++ b) = (a, b).
Proof.
  induction a as [|c a IH]; intros Ha Hb.
  - destruct b as [|c b]; cbn [append span]; [reflexivity|].
    rewrite Hb. reflexivity.
  - cbn [append span] in *. destruct (f c); [|discriminate Ha].
    destruct (span f a) as [a' r'] eqn:E. inversion Ha; subst.
    rewrite (IH eq_refl Hb). reflexivity.
Qed.

Lemma many1_spec (f : ascii -> bool) (s a b : string) :
  many1 f s = Some (a, b) ->
  a <> EmptyString /\ span f a = (a, EmptyString)
  /\ match b with
     | String c _ => f c = false
     | EmptyString => True
     end.
Proof.
  unfold many1. destruct (span f s) as [a' b'] eqn:E.
  destruct (span_spec f s a' b' E) as [_ [Ha Hb]].
  destruct a' as [|c a']; [discriminate|].
  intros H. inversion H; subst. split; [discriminate|]. split; assumption.
Qed.

(** The text of a group [\d+\.\d+] is a literal that [float] converts: the
    conversion of a measured value cannot raise. *)
Lemma float_of_capture (unit_ s g : string) :
  measured unit_ s = Some g -> exists v : float, float_ g = Ok v.
Proof.
  unfold measured, decimal.
  destruct (many1 is_digit s) as [[ip r]|] eqn:Eip; [|discriminate].
  destruct (lit "." r) as [r1|] eqn:Edot; [|discriminate].
  destruct (many1 is_digit r1) as [[fp r2]|] eqn:Efp; [|discriminate].
  destruct (lit unit_ r2) as [r3|]; [|discriminate].
  destruct (dollar r3); [|discriminate].
  intros H. inversion H; subst. clear H.
  destruct (many1_spec _ _ _ _ Eip) as [Hip [Sip _]].
  destruct (many1_spec _ _ _ _ Efp) as [Hfp [Sfp _]].
  unfold float_, decimal, many1.
  rewrite (span_app is_digit ip (String "." fp) Sip) by reflexivity.
  destruct ip as [|c ip]; [contradiction Hip; reflexivity|].
  cbv beta iota. change (lit "." (String "." fp)) with (Some fp).
  cbv beta iota. rewrite Sfp.
  destruct fp as [|c' fp]; [contradiction Hfp; reflexivity|].
  eexists. reflexivity.
Qed.

(** C5 on the code: a timestamp line with an impossible date makes
    [strptime] raise [ValueError]; nothing catches it, so extraction
    returns no Reading, the power line after it is never looked at, and
    the read loop ends with the exception. *)
Theorem bad_field_aborts_extraction (tz az : Z) :
  p1_data_from_lines tz az bad_date_body = Raise ValueError
  /\ run tz az AwaitHeader (sample_header :: bad_date_body ++ ["!AEB6"])
     = (Crashed ValueError, []).
Proof. split; vm_compute; reflexivity. Qed.

Section Extraction.

Variables tz az : Z.

(** One line either leaves [gas] and [gas_timestamp] as they are or, when
    it is a gas line, sets both. *)
Lemma line_gas_pair (p1 p1' : P1Data) (line : string) :
  p1_data_from_line tz az p1 line = Ok p1' ->
  (gas p1' = gas p1 /\ gas_timestamp p1' = gas_timestamp p1)
  \/ (gas p1' <> None /\ gas_timestamp p1' <> None
      /\ regex_gas_total line <> None).
Proof.
  unfold p1_data_from_line, bind. intros H.
  repeat match goal with
         | E : Ok _ = Ok _ |- _ => inversion E; subst; clear E
         | E : Raise _ = Ok _ |- _ => discriminate E
         | E : context [match ?x with _ => _ end] |- _ => destruct x eqn:?
         end;
    cbn;
    solve [ left; split; reflexivity
          | right; repeat split; discriminate ].
Qed.

Lemma lines_gas_pair (lines : list string) (p1 p1' : P1Data) :
  p1_data_from_lines_from tz az p1 lines = Ok p1' ->
  (gas p1' = gas p1 /\ gas_timestamp p1' = gas_timestamp p1)
  \/ (gas p1' <> None /\ gas_timestamp p1' <> None
      /\ exists line, In line lines /\ regex_gas_total line <> None).
Proof.
  revert p1. induction lines as [|line lines IH]; intros p1 H.
  - cbn in H. inversion H; subst. left. split; reflexivity.
  - cbn [p1_data_from_lines_from] in H. unfold bind in H.
    destruct (p1_data_from_line tz az p1 line) as [q|e] eqn:E;
      [|discriminate H].
    destruct (IH q H) as [[Hg Ht]|[Hg [Ht [l [Hin Hl]]]]].
    + destruct (line_gas_pair _ _ _ E) as [[Hg' Ht']|[Hg' [Ht' Hl]]].
      * left. split; congruence.
      * right. rewrite Hg, Ht. repeat split; try assumption.
        exists line. split; [left; reflexivity|assumption].
    + right. repeat split; try assumption.
      exists l. split; [right; assumption|assumption].
Qed.

Lemma lines_from_app (xs ys : list string) (p1 : P1Data) :
  p1_data_from_lines_from tz az p1 (xs ++ ys)
  = (q <- p1_data_from_lines_from tz az p1 xs ;;
     p1_data_from_lines_from tz az q ys).
Proof.
  revert p1. induction xs as [|x xs IH]; intros p1; cbn.
  - reflexivity.
  - destruct (p1_data_from_line tz az p1 x) as [q|e]; cbn;
      [apply IH|reflexivity].
Qed.

(** A line that only the timestamp pattern matches. *)
Lemma timestamp_line (p1 : P1Data) (line timestring dst : string) :
  regex_p1_timestamp line = Some (timestring, dst) ->
  regex_current_kwatt line = None ->
  regex_tariff1_total line = None ->
  regex_tariff2_total line = None ->
  regex_l1_voltage line = None ->
  regex_gas_total line = None ->
  p1_data_from_line tz az p1 line
  = (t <- p1_localtime_to_utc tz az timestring dst ;;
     Ok (set_timestamp t p1)).
Proof.
  intros H1 H2 H3 H4 H5 H6. unfold p1_data_from_line.
  rewrite H1, H2, H3, H4, H5, H6.
  destruct (p1_localtime_to_utc tz az timestring dst); reflexivity.
Qed.

(** A line that only the gas pattern matches. *)
Lemma gas_line (p1 : P1Data) (line timestring dst volume : string) :
  regex_p1_timestamp line = None ->
  regex_current_kwatt line = None ->
  regex_tariff1_total line = None ->
  regex_tariff2_total line = None ->
  regex_l1_voltage line = None ->
  regex_gas_total line = Some (timestring, dst, volume) ->
  p1_data_from_line tz az p1 line
  = (t <- p1_localtime_to_utc tz az timestring dst ;;
     v <- float_ volume ;;
     Ok (set_gas v (set_gas_timestamp t p1))).
Proof.
  intros H1 H2 H3 H4 H5 H6. unfold p1_data_from_line.
  rewrite H1, H2, H3, H4, H5, H6. reflexivity.
Qed.

End Extraction.

(** C9: from the six body lines of the sample telegram extraction returns
    watt 234.0, which is 0.234 times 1000 in binary64, tariff1 32.289,
    tariff2 16.064, voltage 235.2 and gas 26.8, and both timestamps moved by
    [time.timezone], their flag being W. *)
Theorem sample_reading (tz az : Z) :
  Z.abs tz <= 86400 ->
  exists t g : datetime,
    p1_data_from_lines tz az sample_body
    = Ok (mk_P1Data (Some t)
                    (Some (Prim2SF 234.0%float))
                    (Some (Prim2SF 32.289%float))
                    (Some (Prim2SF 16.064%float))
                    (Some (Prim2SF 235.2%float))
                    (Some (Prim2SF 26.8%float))
                    (Some g))
    /\ float_mul (Prim2SF 0.234%float) (Prim2SF 1000.0%float)
       = Prim2SF 234.0%float
    /\ instant t = instant (mk_datetime 2021 2 14 19 54 40) + tz
    /\ instant g = instant (mk_datetime 2021 2 14 19 50 3) + tz
    /\ valid_datetime t /\ valid_datetime g.
Proof.
  intros Htz.
  destruct (localtime_to_utc_spec tz az "210214195440" "W"
              (mk_datetime 2021 2 14 19 54 40))
    as [t [Et [It Vt]]]; [vm_compute; reflexivity|exact Htz|].
  destruct (localtime_to_utc_spec tz az "210214195003" "W"
              (mk_datetime 2021 2 14 19 50 3))
    as [g [Eg [Ig Vg]]]; [vm_compute; reflexivity|exact Htz|].
  exists t, g. split; [|split; [vm_compute; reflexivity|]].
  - unfold p1_data_from_lines.
    change sample_body
      with (["0-0:1.0.0(210214195440W)"]
            ++ [ "1-0:1.7.0(00.234*kW)"; "1-0:1.8.1(000032.289*kWh)";
                 "1-0:1.8.2(000016.064*kWh)"; "1-0:32.7.0(235.2*V)" ]
            ++ ["0-1:24.2.1(210214195003W)(00026.800*m3)"])%list.
    rewrite lines_from_app. cbn [p1_data_from_lines_from].
    rewrite (timestamp_line tz az P1Data_ _ "210214195440" "W")
      by reflexivity.
    rewrite Et. cbn [bind]. rewrite lines_from_app.
    assert (Emid : p1_data_from_lines_from tz az (set_timestamp t P1Data_)
                     [ "1-0:1.7.0(00.234*kW)"; "1-0:1.8.1(000032.289*kWh)";
                       "1-0:1.8.2(000016.064*kWh)"; "1-0:32.7.0(235.2*V)" ]
                   = Ok (mk_P1Data (Some t)
                           (Some (Prim2SF 234.0%float))
                           (Some (Prim2SF 32.289%float))
                           (Some (Prim2SF 16.064%float))
                           (Some (Prim2SF 235.2%float))
                           None None))
      by (vm_compute; reflexivity).
    rewrite Emid. cbn [bind p1_data_from_lines_from].
    rewrite (gas_line tz az _ _ "210214195003" "W" "00026.800")
      by reflexivity.
    rewrite Eg. cbn [bind].
    vm_compute. reflexivity.
  - split; [exact It|]. split; [exact Ig|]. split; [exact Vt|exact Vg].
Qed.

Lemma sample_reading_witness :
  exists t g : datetime,
    p1_data_from_lines (-3600) (-7200) sample_body
    = Ok (mk_P1Data (Some t)
                    (Some (Prim2SF 234.0%float))
                    (Some (Prim2SF 32.289%float))
                    (Some (Prim2SF 16.064%float))
                    (Some (Prim2SF 235.2%float))
                    (Some (Prim2SF 26.8%float))
                    (Some g))
    /\ t = mk_datetime 2021 2 14 18 54 40
    /\ g = mk_datetime 2021 2 14 18 50 3.
Proof.
  assert (Htz : Z.abs (-3600) <= 86400) by (vm_compute; discriminate).
  destruct (sample_reading (-3600) (-7200) Htz) as [t [g [E _]]].
  exists t, g. split; [exact E|].
  vm_compute in E. inversion E. split; reflexivity.
Defined.

(** C10: in every Reading that extraction returns, [gas] is present exactly
    when [gas_timestamp] is; and they are present only when one of the
    lines matched the gas pattern, which captures both. *)
Theorem gas_iff_gas_timestamp (tz az : Z) (lines : list string) (p1 : P1Data) :
  p1_data_from_lines tz az lines = Ok p1 ->
  (gas p1 <> None <-> gas_timestamp p1 <> None)
  /\ (gas p1 <> None ->
      exists line, In line lines /\ regex_gas_total line <> None).
Proof.
  intros H. unfold p1_data_from_lines in H.
  destruct (lines_gas_pair tz az lines P1Data_ p1 H)
    as [[Hg Ht]|[Hg [Ht Hl]]].
  - rewrite Hg, Ht. cbn. split; [split|]; intros C; contradiction C;
      reflexivity.
  - split; [split; intros _; assumption|]. intros _. exact Hl.
Qed.

Lemma gas_iff_gas_timestamp_witness :
  exists p1 : P1Data,
    p1_data_from_lines (-3600) (-7200) sample_body = Ok p1
    /\ (gas p1 <> None <-> gas_timestamp p1 <> None).
Proof.
  destruct (p1_data_from_lines (-3600) (-7200) sample_body) as [p1|e] eqn:E.
  - exists p1. split; [reflexivity|].
    exact (proj1 (gas_iff_gas_timestamp (-3600) (-7200) sample_body p1 E)).
  - vm_compute in E. discriminate E.
Defined.

(** ** Successive Readings *)

(** C8, as stated, fails: of two telegrams in a row, the second stamped a
    second before the first, both are routed, and nothing is reported. *)
Lemma timestamp_regression_counterexample :
  fst (run (-3600) (-7200) AwaitHeader regressing_stream) = AwaitHeader
  /\ map timestamp
         (routed (snd (run (-3600) (-7200) AwaitHeader regressing_stream)))
     = [ Some (mk_datetime 2021 2 14 18 54 41);
         Some (mk_datetime 2021 2 14 18 54 40) ]
  /\ instant (mk_datetime 2021 2 14 18 54 40)
     < instant (mk_datetime 2021 2 14 18 54 41)
  /\ complaints (snd (run (-3600) (-7200) AwaitHeader regressing_stream)) = [].
Proof. repeat split; vm_compute; reflexivity. Qed.

(** * Further properties of the extractor *)

Lemma lit_app (p s r : string) : lit p s = Some r -> s = (p ++ r)%string.
Proof.
  revert s. induction p as [|a p IH]; intros s H; cbn [lit append] in *.
  - inversion H. reflexivity.
  - destruct s as [|b s]; [discriminate H|].
    destruct (Ascii.eqb_spec a b) as [->|]; [|discriminate H].
    rewrite (IH s H). reflexivity.
Qed.

(** After one of the six prefixes the five others are not found. *)
Ltac other_prefixes :=
  repeat match goal with
         | |- context [lit ?p (?q ++ ?s)%string] =>
             change (lit p (q ++ s)%string) with (@None string)
         end.

(** X1: no line is matched by two of the six patterns of the extractor, so
    the six tests in a row set at most one kind of field per line. *)
Theorem patterns_exclusive (line : string) : (pattern_hits line <= 1)%nat.
Proof.
  unfold pattern_hits, regex_p1_timestamp, regex_current_kwatt,
    regex_tariff1_total, regex_tariff2_total, regex_l1_voltage,
    regex_gas_total.
  destruct (lit "0-0:1.0.0(" line) as [r|] eqn:E1.
  { apply lit_app in E1. subst line. other_prefixes.
    destruct (stamped at_end r) as [[[? ?] ?]|]; cbn [hit]; lia. }
  destruct (lit "1-0:1.7.0(" line) as [r|] eqn:E2.
  { apply lit_app in E2. subst line. other_prefixes.
    destruct (measured "*kW)" r); cbn [hit]; lia. }
  destruct (lit "1-0:1.8.1(" line) as [r|] eqn:E3.
  { apply lit_app in E3. subst line. other_prefixes.
    destruct (measured "*kWh)" r); cbn [hit]; lia. }
  destruct (lit "1-0:1.8.2(" line) as [r|] eqn:E4.
  { apply lit_app in E4. subst line. other_prefixes.
    destruct (measured "*kWh)" r); cbn [hit]; lia. }
  destruct (lit "1-0:32.7.0(" line) as [r|] eqn:E5.
  { apply lit_app in E5. subst line. other_prefixes.
    destruct (measured "*V)" r); cbn [hit]; lia. }
  destruct (lit "0-1:24.2.1(" line) as [r|] eqn:E6.
  { destruct (stamped _ r) as [[[? ?] ?]|]; cbn [hit]; lia. }
  cbn [hit]. lia.
Qed.

(** What [strptime] raises is a [ValueError]. *)
Lemma strptime_raises (data_string : string) (e : exn) :
  strptime data_string = Raise e -> e = ValueError.
Proof.
  assert (Hint : forall (s : string) (e' : exn),
            int_ s = Raise e' -> e' = ValueError).
  { intros s e'. unfold int_. destruct (strip s); [congruence|].
    destruct (all_digits _); congruence. }
  unfold strptime, bind. intros H.
  destruct (match_groups P1_TIME_FMT data_string)
    as [[[|g_y [|g_m [|g_d [|g_H [|g_M [|g_S [|? ?]]]]]]] [|? ?]]|];
    try congruence.
  destruct (int_ g_y) eqn:E1; [|apply (Hint g_y); congruence].
  destruct (int_ g_m) eqn:E2; [|apply (Hint g_m); congruence].
  destruct (int_ g_d) eqn:E3; [|apply (Hint g_d); congruence].
  destruct (int_ g_H) eqn:E4; [|apply (Hint g_H); congruence].
  destruct (int_ g_M) eqn:E5; [|apply (Hint g_M); congruence].
  destruct (int_ g_S) eqn:E6; [|apply (Hint g_S); congruence].
  unfold datetime_new in H. destruct (_ && _)%bool; congruence.
Qed.

(** The texts that the patterns hand to [float] are literals it converts. *)
Lemma stamped_tail {A : Type} (tail : string -> option A) (s : string)
    (timestring dst : string) (a : A) :
  stamped tail s = Some (timestring, dst, a) ->
  exists r : string, tail r = Some a.
Proof.
  unfold stamped.
  destruct (many1 is_digit s) as [[? r1]|]; [|discriminate].
  destruct (one is_dst_flag r1) as [[? r2]|]; [|discriminate].
  destruct (lit ")" r2) as [r3|]; [|discriminate].
  destruct (tail r3) as [a'|] eqn:E; [|discriminate].
  intros H. inversion H; subst. exists r3. exact E.
Qed.

Lemma kwatt_float (line g : string) :
  regex_current_kwatt line = Some g -> exists v : float, float_ g = Ok v.
Proof.
  unfold regex_current_kwatt. destruct (lit _ line); [|discriminate].
  apply float_of_capture.
Qed.

Lemma tariff1_float (line g : string) :
  regex_tariff1_total line = Some g -> exists v : float, float_ g = Ok v.
Proof.
  unfold regex_tariff1_total. destruct (lit _ line); [|discriminate].
  apply float_of_capture.
Qed.

Lemma tariff2_float (line g : string) :
  regex_tariff2_total line = Some g -> exists v : float, float_ g = Ok v.
Proof.
  unfold regex_tariff2_total. destruct (lit _ line); [|discriminate].
  apply float_of_capture.
Qed.

Lemma voltage_float (line g : string) :
  regex_l1_voltage line = Some g -> exists v : float, float_ g = Ok v.
Proof.
  unfold regex_l1_voltage. destruct (lit _ line); [|discriminate].
  apply float_of_capture.
Qed.

Lemma gas_float (line timestring dst g : string) :
  regex_gas_total line = Some (timestring, dst, g) ->
  exists v : float, float_ g = Ok v.
Proof.
  unfold regex_gas_total. destruct (lit _ line) as [r|]; [|discriminate].
  intros H. apply stamped_tail in H. destruct H as [r' H].
  destruct (lit "(" r') as [r''|]; [|discriminate].
  exact (float_of_capture _ _ _ H).
Qed.

Section Conversion.

Variables tz az : Z.
Hypothesis tz_day : Z.abs tz <= 86400.
Hypothesis az_day : Z.abs az <= 86400.

(** With offsets of at most a day the conversion of a timestamp fails
    only where [strptime] does. *)
Lemma localtime_to_utc_cases (timestring dstchar : string) :
  match strptime timestring with
  | Ok local =>
      exists utc : datetime,
        p1_localtime_to_utc tz az timestring dstchar = Ok utc
        /\ instant utc
           = instant local + (if String.eqb dstchar "W" then tz else az)
        /\ valid_datetime utc
  | Raise _ => p1_localtime_to_utc tz az timestring dstchar = Raise ValueError
  end.
Proof.
  destruct (strptime timestring) as [local|e] eqn:E.
  - apply localtime_to_utc_spec; [exact E|].
    destruct (String.eqb dstchar "W"); assumption.
  - unfold p1_localtime_to_utc. rewrite E.
    rewrite (strptime_raises _ _ E). reflexivity.
Qed.

Lemma parses_utc (timestring dstchar : string) :
  parses timestring = true ->
  exists utc : datetime,
    p1_localtime_to_utc tz az timestring dstchar = Ok utc.
Proof.
  unfold parses. pose proof (localtime_to_utc_cases timestring dstchar) as H.
  destruct (strptime timestring); [|discriminate].
  intros _. destruct H as [utc [H _]]. exists utc. exact H.
Qed.

Lemma not_parses_utc (timestring dstchar : string) :
  parses timestring = false ->
  p1_localtime_to_utc tz az timestring dstchar = Raise ValueError.
Proof.
  unfold parses. pose proof (localtime_to_utc_cases timestring dstchar) as H.
  destruct (strptime timestring); [discriminate|]. intros _. exact H.
Qed.

(** One line: extraction goes on exactly when the timestamp texts of the
    line parse, and stops with [ValueError] otherwise. *)
Lemma line_cases (p1 : P1Data) (line : string) :
  if stamp_ok line
  then exists q : P1Data, p1_data_from_line tz az p1 line = Ok q
  else p1_data_from_line tz az p1 line = Raise ValueError.
Proof.
  unfold stamp_ok, p1_data_from_line.
  pose proof (kwatt_float line) as F1. pose proof (tariff1_float line) as F2.
  pose proof (tariff2_float line) as F3. pose proof (voltage_float line) as F4.
  pose proof (gas_float line) as F5.
  destruct (regex_current_kwatt line) as [g1|];
    [destruct (F1 _ eq_refl) as [v1 ->]|]; clear F1;
  (destruct (regex_tariff1_total line) as [g2|];
    [destruct (F2 _ eq_refl) as [v2 ->]|]); clear F2;
  (destruct (regex_tariff2_total line) as [g3|];
    [destruct (F3 _ eq_refl) as [v3 ->]|]); clear F3;
  (destruct (regex_l1_voltage line) as [g4|];
    [destruct (F4 _ eq_refl) as [v4 ->]|]); clear F4;
  (destruct (regex_gas_total line) as [[[ts' dst'] g5]|];
    [destruct (F5 _ _ _ eq_refl) as [v5 ->]|]); clear F5;
  (destruct (regex_p1_timestamp line) as [[ts dst]|];
    [destruct (parses ts) eqn:Ets;
     [destruct (parses_utc ts dst Ets) as [u ->]
     |rewrite (not_parses_utc ts dst Ets)]|]);
  cbn [bind andb];
  try reflexivity;
  try (eexists; reflexivity);
  (destruct (parses ts') eqn:Ets';
   [destruct (parses_utc ts' dst' Ets') as [u' ->]
   |rewrite (not_parses_utc ts' dst' Ets')]);
  cbn [bind]; try reflexivity; eexists; reflexivity.
Qed.

Lemma lines_cases (lines : list string) (p1 : P1Data) :
  if forallb stamp_ok lines
  then exists q : P1Data, p1_data_from_lines_from tz az p1 lines = Ok q
  else p1_data_from_lines_from tz az p1 lines = Raise ValueError.
Proof.
  revert p1. induction lines as [|line lines IH]; intros p1;
    cbn [forallb p1_data_from_lines_from].
  - exists p1. reflexivity.
  - pose proof (line_cases p1 line) as H.
    destruct (stamp_ok line); cbn [andb].
    + destruct H as [q ->]. cbn [bind]. apply IH.
    + rewrite H. reflexivity.
Qed.

End Conversion.

(** X2: with [time.timezone] and [time.altzone] of at most a day, the
    conversion of a timestamp raises exactly when [strptime] refuses the
    text, and then a [ValueError], never an [OverflowError]; when it
    returns, the result is a proper date-time, [time.timezone] seconds from
    the local one under the flag W and [time.altzone] seconds from it under
    every other flag. *)
Theorem conversion_fails_as_strptime (tz az : Z) (timestring dstchar : string) :
  Z.abs tz <= 86400 ->
  Z.abs az <= 86400 ->
  (forall e : exn,
     p1_localtime_to_utc tz az timestring dstchar = Raise e ->
     e = ValueError /\ strptime timestring = Raise ValueError)
  /\ (forall utc : datetime,
        p1_localtime_to_utc tz az timestring dstchar = Ok utc ->
        exists local : datetime,
          strptime timestring = Ok local
          /\ instant utc
             = instant local + (if String.eqb dstchar "W" then tz else az)
          /\ valid_datetime utc).
Proof.
  intros Htz Haz.
  pose proof (localtime_to_utc_cases tz az Htz Haz timestring dstchar) as H.
  destruct (strptime timestring) as [local|e0] eqn:E.
  - destruct H as [utc [Hu [Hi Hv]]]. split.
    + intros e He. congruence.
    + intros utc' Hu'. exists local. split; [reflexivity|].
      assert (utc' = utc) by congruence. subst utc'. split; assumption.
  - split.
    + intros e He. split; [congruence|].
      rewrite (strptime_raises _ _ E). reflexivity.
    + intros utc Hu. congruence.
Qed.

Lemma conversion_fails_as_strptime_witness :
  p1_localtime_to_utc (-3600) (-7200) "210230195440" "S" = Raise ValueError
  /\ strptime "210230195440" = Raise ValueError.
Proof.
  assert (Htz : Z.abs (-3600) <= 86400) by (vm_compute; discriminate).
  assert (Haz : Z.abs (-7200) <= 86400) by (vm_compute; discriminate).
  split; [vm_compute; reflexivity|].
  exact (proj2 (proj1 (conversion_fails_as_strptime (-3600) (-7200)
                         "210230195440" "S" Htz Haz)
                  ValueError eq_refl)).
Defined.

(** X3: with offsets of at most a day, extraction returns a Reading exactly
    when [strptime] accepts every timestamp text that the timestamp pattern
    or the gas pattern captures in the lines; otherwise it raises
    [ValueError].  A measured value never makes it fail. *)
Theorem extraction_fails_on_timestamps_only (tz az : Z) (lines : list string) :
  Z.abs tz <= 86400 ->
  Z.abs az <= 86400 ->
  if forallb stamp_ok lines
  then exists p1 : P1Data, p1_data_from_lines tz az lines = Ok p1
  else p1_data_from_lines tz az lines = Raise ValueError.
Proof.
  intros Htz Haz. exact (lines_cases tz az Htz Haz lines P1Data_).
Qed.

Lemma extraction_fails_on_timestamps_only_witness :
  (exists p1 : P1Data, p1_data_from_lines (-3600) (-7200) sample_body = Ok p1)
  /\ p1_data_from_lines (-3600) (-7200)
       (sample_body ++ ["0-1:24.2.1(210230195003W)(00026.800*m3)"])
     = Raise ValueError.
Proof.
  assert (Htz : Z.abs (-3600) <= 86400) by (vm_compute; discriminate).
  assert (Haz : Z.abs (-7200) <= 86400) by (vm_compute; discriminate).
  split.
  - exact (extraction_fails_on_timestamps_only (-3600) (-7200) sample_body
             Htz Haz).
  - exact (extraction_fails_on_timestamps_only (-3600) (-7200)
             (sample_body ++ ["0-1:24.2.1(210230195003W)(00026.800*m3)"])
             Htz Haz).
Defined.

Section Fields.

Variables tz az : Z.

(** What one line does to each field. *)
Lemma line_fields (p1 q : P1Data) (line : string) :
  p1_data_from_line tz az p1 line = Ok q ->
  field_from (regex_p1_timestamp line)
             (fun c => p1_localtime_to_utc tz az (fst c) (snd c))
             (timestamp p1) (timestamp q)
  /\ field_from (regex_current_kwatt line) watt_of (watt p1) (watt q)
  /\ field_from (regex_tariff1_total line) float_ (tariff1 p1) (tariff1 q)
  /\ field_from (regex_tariff2_total line) float_ (tariff2 p1) (tariff2 q)
  /\ field_from (regex_l1_voltage line) float_ (voltage p1) (voltage q)
  /\ field_from (regex_gas_total line)
                (fun c => p1_localtime_to_utc tz az (fst (fst c)) (snd (fst c)))
                (gas_timestamp p1) (gas_timestamp q)
  /\ field_from (regex_gas_total line) (fun c => float_ (snd c))
                (gas p1) (gas q).
Proof.
  unfold p1_data_from_line, bind. intros H.
  repeat match goal with
         | E : Ok _ = Ok _ |- _ => inversion E; subst; clear E
         | E : Raise _ = Ok _ |- _ => discriminate E
         | E : context [match ?x with _ => _ end] |- _ => destruct x eqn:?
         end;
    unfold field_from, watt_of, bind; cbn [fst snd];
    repeat apply conj;
    first [ reflexivity
          | eexists; split; [eassumption|reflexivity]
          | match goal with
            | E : float_ ?g = Ok ?v |- context [float_ ?g] =>
                rewrite E; eexists; split; reflexivity
            end ].
Qed.

(** A field after all the lines comes from the last line of its kind. *)
Lemma last_match_field {A B : Type} (re : string -> option A)
    (convert : A -> result B) (get : P1Data -> option B) :
  (forall (p1 q : P1Data) (line : string),
     p1_data_from_line tz az p1 line = Ok q ->
     field_from (re line) convert (get p1) (get q)) ->
  forall (lines : list string) (p1 q : P1Data),
    p1_data_from_lines_from tz az p1 lines = Ok q ->
    field_from (last_match re lines) convert (get p1) (get q).
Proof.
  intros Hline. induction lines as [|line lines IH]; intros p1 q H;
    cbn [p1_data_from_lines_from last_match] in *.
  - inversion H. reflexivity.
  - destruct (p1_data_from_line tz az p1 line) as [p'|] eqn:E;
      cbn [bind] in H; [|discriminate H].
    specialize (IH _ _ H). specialize (Hline _ _ _ E).
    destruct (last_match re lines) as [a|]; [exact IH|].
    cbn [field_from] in IH. unfold field_from in *.
    destruct (re line) as [a|].
    + destruct Hline as [b [Hc Hb]]. exists b. split; congruence.
    + congruence.
Qed.

(** Lines that no pattern matches leave the Reading as it is. *)
Lemma unknown_line (p1 : P1Data) (line : string) :
  pattern_hits line = 0%nat -> p1_data_from_line tz az p1 line = Ok p1.
Proof.
  unfold pattern_hits, p1_data_from_line. intros H.
  destruct (regex_p1_timestamp line); [discriminate H|].
  destruct (regex_current_kwatt line); [discriminate H|].
  destruct (regex_tariff1_total line); [discriminate H|].
  destruct (regex_tariff2_total line); [discriminate H|].
  destruct (regex_l1_voltage line); [discriminate H|].
  destruct (regex_gas_total line); [discriminate H|].
  reflexivity.
Qed.

Lemma unknown_lines (noise : list string) (p1 : P1Data) :
  Forall (fun line => pattern_hits line = 0%nat) noise ->
  p1_data_from_lines_from tz az p1 noise = Ok p1.
Proof.
  induction 1 as [|line noise Hline _ IH]; cbn [p1_data_from_lines_from].
  - reflexivity.
  - rewrite (unknown_line p1 line Hline). exact IH.
Qed.

End Fields.

(** X4: in the Reading that extraction returns, every field is absent when
    no line matched its pattern and otherwise holds the converted capture
    of the last line that did: the power times 1000, the other measured
    values as they are, the timestamps through [p1_localtime_to_utc]; both
    gas fields come from the same line. *)
Theorem fields_from_last_lines (tz az : Z) (lines : list string) (p1 : P1Data) :
  p1_data_from_lines tz az lines = Ok p1 ->
  field_from (last_match regex_p1_timestamp lines)
             (fun c => p1_localtime_to_utc tz az (fst c) (snd c))
             None (timestamp p1)
  /\ field_from (last_match regex_current_kwatt lines) watt_of None (watt p1)
  /\ field_from (last_match regex_tariff1_total lines) float_ None (tariff1 p1)
  /\ field_from (last_match regex_tariff2_total lines) float_ None (tariff2 p1)
  /\ field_from (last_match regex_l1_voltage lines) float_ None (voltage p1)
  /\ field_from (last_match regex_gas_total lines)
                (fun c => p1_localtime_to_utc tz az (fst (fst c)) (snd (fst c)))
                None (gas_timestamp p1)
  /\ field_from (last_match regex_gas_total lines) (fun c => float_ (snd c))
                None (gas p1).
Proof.
  intros H. unfold p1_data_from_lines in H.
  repeat apply conj.
  - apply (last_match_field tz az _ _ timestamp) with (p1 := P1Data_);
      [intros a b l E; apply (line_fields tz az a b l E)|exact H].
  - apply (last_match_field tz az _ _ watt) with (p1 := P1Data_);
      [intros a b l E; apply (line_fields tz az a b l E)|exact H].
  - apply (last_match_field tz az _ _ tariff1) with (p1 := P1Data_);
      [intros a b l E; apply (line_fields tz az a b l E)|exact H].
  - apply (last_match_field tz az _ _ tariff2) with (p1 := P1Data_);
      [intros a b l E; apply (line_fields tz az a b l E)|exact H].
  - apply (last_match_field tz az _ _ voltage) with (p1 := P1Data_);
      [intros a b l E; apply (line_fields tz az a b l E)|exact H].
  - apply (last_match_field tz az _ _ gas_timestamp) with (p1 := P1Data_);
      [intros a b l E; apply (line_fields tz az a b l E)|exact H].
  - apply (last_match_field tz az _ _ gas) with (p1 := P1Data_);
      [intros a b l E; apply (line_fields tz az a b l E)|exact H].
Qed.

Lemma fields_from_last_lines_witness :
  exists p1 : P1Data,
    p1_data_from_lines (-3600) (-7200)
      (sample_body ++ ["1-0:1.7.0(01.500*kW)"]) = Ok p1
    /\ watt p1 = Some (Prim2SF 1500.0%float).
Proof.
  destruct (p1_data_from_lines (-3600) (-7200)
              (sample_body ++ ["1-0:1.7.0(01.500*kW)"])) as [p1|e] eqn:E.
  - exists p1. split; [reflexivity|].
    destruct (proj1 (proj2 (fields_from_last_lines (-3600) (-7200) _ p1 E)))
      as [w [Hw ->]].
    vm_compute in Hw. inversion Hw. reflexivity.
  - vm_compute in E. discriminate E.
Defined.

(** X5: lines that none of the six patterns matches change nothing,
    wherever they stand among the lines. *)
Theorem unknown_lines_ignored (tz az : Z) (before noise after : list string) :
  Forall (fun line => pattern_hits line = 0%nat) noise ->
  p1_data_from_lines tz az (before ++ noise ++ after)
  = p1_data_from_lines tz az (before ++ after).
Proof.
  intros Hnoise. unfold p1_data_from_lines.
  rewrite !lines_from_app.
  destruct (p1_data_from_lines_from tz az P1Data_ before) as [q|e];
    cbn [bind]; [|reflexivity].
  rewrite lines_from_app, (unknown_lines tz az noise q Hnoise).
  reflexivity.
Qed.

Lemma unknown_lines_ignored_witness :
  p1_data_from_lines (-3600) (-7200)
    (firstn 2 sample_body
     ++ ["1-0:2.8.1(000000.000*kWh)"; "0-0:96.14.0(0002)"; ""]
     ++ skipn 2 sample_body)
  = p1_data_from_lines (-3600) (-7200)
      (firstn 2 sample_body ++ skipn 2 sample_body).
Proof.
  apply (unknown_lines_ignored (-3600) (-7200) (firstn 2 sample_body)
           ["1-0:2.8.1(000000.000*kWh)"; "0-0:96.14.0(0002)"; ""]
           (skipn 2 sample_body)).
  repeat constructor.
Defined.

(** * Further properties of the read loop *)

Section Loop.

Variables tz az : Z.

Lemma while_head_within_limit (p1_msg : list string) :
  within_limit (fst (while_head p1_msg)).
Proof.
  unfold while_head.
  destruct (Nat.leb_spec (List.length p1_msg) P1_MSG_LIMIT) as [H|H];
    cbn [fst within_limit]; [exact H|exact I].
Qed.

Lemma step_within_limit (st : state) (raw : string) :
  within_limit st -> within_limit (fst (step tz az st raw)).
Proof.
  intros Hst. destruct st as [|p1_msg|e]; cbn [step].
  - destruct (regex_p1_header (strip raw));
      [apply while_head_within_limit|exact I].
  - destruct (regex_p1_crc (strip raw)); [|apply while_head_within_limit].
    destruct (io_bind _ _) as [out [?|?]]; exact I.
  - exact I.
Qed.

Lemma run_within_limit (raws : list string) (st : state) :
  within_limit st -> within_limit (fst (run tz az st raws)).
Proof.
  revert st. induction raws as [|raw raws IH]; intros st Hst; cbn [run].
  - exact Hst.
  - pose proof (step_within_limit st raw Hst) as H.
    destruct (step tz az st raw) as [st1 out1]. cbn [fst] in H.
    specialize (IH st1 H).
    destruct (run tz az st1 raws) as [st2 out2]. exact IH.
Qed.

(** Before a header, lines that are no header are read and dropped. *)
Lemma skip_lines (noise : list string) :
  Forall (fun raw => regex_p1_header (strip raw) = false) noise ->
  run tz az AwaitHeader noise = (AwaitHeader, []).
Proof.
  induction 1 as [|raw noise Hraw _ IH]; cbn [run step].
  - reflexivity.
  - rewrite Hraw, IH. reflexivity.
Qed.

Lemma written_to_app (bucket : string) (xs ys : list event) :
  written_to bucket (xs ++ ys)
  = (written_to bucket xs ++ written_to bucket ys)%list.
Proof.
  induction xs as [|e xs IH]; cbn [app written_to]; [reflexivity|].
  destruct e as [b o r p| | |]; try exact IH.
  destruct (String.eqb b bucket); cbn [app]; rewrite IH; reflexivity.
Qed.

(** The trace of one call of [add_p1_to_influxdb]. *)
Lemma add_p1_trace (p1 : P1Data) :
  fst (add_p1_to_influxdb p1)
  = Write influxdb_highres_bucket influxdb_org (p1_points p1) WritePrecision_S
    :: match timestamp p1 with
       | Some t =>
           (if second t =? 0
            then [Write influxdb_lowres_bucket influxdb_org (p1_points p1)
                        WritePrecision_S]
            else [])
           ++ [Flush; PrintWritten p1]
       | None => []
       end.
Proof.
  unfold add_p1_to_influxdb.
  destruct (timestamp p1) as [t|];
    cbn [attr_second lift emit io_bind io_ret app];
    [destruct (second t =? 0)|]; reflexivity.
Qed.

Lemma on_the_minute_points (p1 : P1Data) :
  on_the_minute (p1_points p1)
  = match timestamp p1 with
    | Some t => second t =? 0
    | None => false
    end.
Proof. reflexivity. Qed.

(** What one call of [add_p1_to_influxdb] leaves in the two buckets. *)
Lemma add_p1_buckets (p1 : P1Data) :
  written_to influxdb_lowres_bucket (fst (add_p1_to_influxdb p1))
  = filter on_the_minute
      (written_to influxdb_highres_bucket (fst (add_p1_to_influxdb p1))).
Proof.
  rewrite add_p1_trace.
  destruct (timestamp p1) as [t|] eqn:Et;
    [destruct (second t =? 0) eqn:E0|];
    cbn [app written_to];
    change (String.eqb influxdb_highres_bucket influxdb_lowres_bucket)
      with false;
    change (String.eqb influxdb_lowres_bucket influxdb_highres_bucket)
      with false;
    change (String.eqb influxdb_highres_bucket influxdb_highres_bucket)
      with true;
    change (String.eqb influxdb_lowres_bucket influxdb_lowres_bucket)
      with true;
    cbn iota; cbn [filter]; rewrite on_the_minute_points, Et, ?E0;
    reflexivity.
Qed.

Lemma step_buckets (st : state) (raw : string) :
  written_to influxdb_lowres_bucket (snd (step tz az st raw))
  = filter on_the_minute
      (written_to influxdb_highres_bucket (snd (step tz az st raw))).
Proof.
  assert (Hhead : forall p1_msg : list string,
            written_to influxdb_lowres_bucket (snd (while_head p1_msg))
            = filter on_the_minute
                (written_to influxdb_highres_bucket
                            (snd (while_head p1_msg)))).
  { intros p1_msg. unfold while_head.
    destruct (Nat.leb _ _); reflexivity. }
  destruct st as [|p1_msg|e]; cbn [step].
  - destruct (regex_p1_header (strip raw)); [apply Hhead|reflexivity].
  - destruct (regex_p1_crc (strip raw)); [|apply Hhead].
    unfold lift, io_bind.
    destruct (p1_data_from_lines tz az p1_msg) as [p1|e]; [|reflexivity].
    pose proof (add_p1_buckets p1) as H.
    destruct (add_p1_to_influxdb p1) as [out [?|?]]; exact H.
  - reflexivity.
Qed.

Lemma run_buckets (raws : list string) (st : state) :
  written_to influxdb_lowres_bucket (snd (run tz az st raws))
  = filter on_the_minute
      (written_to influxdb_highres_bucket (snd (run tz az st raws))).
Proof.
  revert st. induction raws as [|raw raws IH]; intros st; cbn [run].
  - reflexivity.
  - pose proof (step_buckets st raw) as H.
    destruct (step tz az st raw) as [st1 out1]. cbn [snd] in H.
    specialize (IH st1).
    destruct (run tz az st1 raws) as [st2 out2]. cbn [snd] in *.
    rewrite !written_to_app, filter_app, H, IH. reflexivity.
Qed.



End Loop.

(** X6: whatever the meter sends, the buffer of the inner loop never holds
    more than [P1_MSG_LIMIT] lines when the loop waits for the next line. *)
Theorem buffer_within_limit (tz az : Z) (raws : list string) :
  within_limit (fst (run tz az AwaitHeader raws)).
Proof. apply run_within_limit. exact I. Qed.

(** X7: lines that arrive before a header line, none of them matching the
    header pattern, are dropped without a trace: the loop handles what
    follows as if they had not been sent. *)
Theorem lines_before_header_dropped (tz az : Z) (noise raws : list string) :
  Forall (fun raw => regex_p1_header (strip raw) = false) noise ->
  run tz az AwaitHeader (noise ++ raws) = run tz az AwaitHeader raws.
Proof.
  intros Hnoise. rewrite run_app, (skip_lines tz az noise Hnoise).
  destruct (run tz az AwaitHeader raws) as [st out]. reflexivity.
Qed.

Lemma lines_before_header_dropped_witness :
  run (-3600) (-7200) AwaitHeader
      (["!AEB6"; "1-0:1.7.0(00.234*kW)"; ""] ++ sample_telegram "!AEB6")
  = run (-3600) (-7200) AwaitHeader (sample_telegram "!AEB6").
Proof.
  apply (lines_before_header_dropped (-3600) (-7200)
           ["!AEB6"; "1-0:1.7.0(00.234*kW)"; ""] (sample_telegram "!AEB6")).
  repeat constructor.
Defined.

(** X8: a header line, at most [P1_MSG_LIMIT] lines that are no trailer and
    a trailer line make one telegram: the lines between header and trailer,
    stripped, and only they, are extracted, and the Reading is routed.  The
    loop then awaits the next header, unless extraction raised or the
    Reading has no timestamp, which ends the process. *)
Theorem telegram_handled (tz az : Z) (header trailer crc : string)
    (body : list string) :
  regex_p1_header (strip header) = true ->
  (List.length body <= P1_MSG_LIMIT)%nat ->
  Forall (fun raw => regex_p1_crc (strip raw) = None) body ->
  regex_p1_crc (strip trailer) = Some crc ->
  run tz az AwaitHeader (header :: body ++ [trailer])
  = match p1_data_from_lines tz az (map strip body) with
    | Ok p1 =>
        (match timestamp p1 with
         | Some _ => AwaitHeader
         | None => Crashed AttributeError
         end,
         fst (add_p1_to_influxdb p1))
    | Raise e => (Crashed e, [])
    end.
Proof.
  intros Hhdr Hlen Hbody Htrailer.
  change (header :: body ++ [trailer])%list
    with ((header :: body) ++ [trailer])%list.
  assert (E : run tz az AwaitHeader (header :: body)
              = (Collecting (map strip body), [])).
  { cbn [run]. rewrite (header_step tz az header Hhdr).
    rewrite (collect_lines tz az body [] Hbody) by exact Hlen.
    reflexivity. }
  rewrite run_app, E, run_one. cbn [step]. rewrite Htrailer.
  unfold lift, io_bind.
  destruct (p1_data_from_lines tz az (map strip body)) as [p1|e];
    [|reflexivity].
  unfold add_p1_to_influxdb.
  destruct (timestamp p1) as [t|];
    cbn [attr_second lift emit io_bind io_ret app fst]; [|reflexivity].
  destruct (second t =? 0); reflexivity.
Qed.

Lemma telegram_handled_witness :
  run (-3600) (-7200) AwaitHeader (sample_telegram "!AEB6")
  = match p1_data_from_lines (-3600) (-7200) (map strip sample_body) with
    | Ok p1 =>
        (match timestamp p1 with
         | Some _ => AwaitHeader
         | None => Crashed AttributeError
         end,
         fst (add_p1_to_influxdb p1))
    | Raise e => (Crashed e, [])
    end.
Proof.
  apply (telegram_handled (-3600) (-7200) sample_header "!AEB6" "AEB6"
           sample_body).
  - reflexivity.
  - vm_compute. repeat constructor.
  - repeat constructor.
  - reflexivity.
Defined.

(** X9: over every run of the loop, the records that reach the
    low-resolution bucket are, in order, those of the high-resolution
    bucket whose timestamp is on a full minute. *)
Theorem lowres_is_highres_on_the_minute (tz az : Z) (st : state)
    (raws : list string) :
  written_to influxdb_lowres_bucket (snd (run tz az st raws))
  = filter on_the_minute
      (written_to influxdb_highres_bucket (snd (run tz az st raws))).
Proof. apply run_buckets. Qed.



(** * Reading back a timestamp written in the P1 format *)

Lemma match_groups_alternative (a : list charclass)
    (alts : list (list charclass)) (gs : list (list (list charclass)))
    (s : string) :
  match_groups ((a :: alts) :: gs) s
  = match match_seq a s with
    | Some (m, r) =>
        match match_groups gs r with
        | Some (ms, r') => Some (m :: ms, r')
        | None => match_groups (alts :: gs) s
        end
    | None => match_groups (alts :: gs) s
    end.
Proof. reflexivity. Qed.

(** When the first alternative of a group that matches takes two
    characters and the other groups match what follows, the group captures
    these two characters. *)
Lemma match_groups_two (g : list (list charclass))
    (gs : list (list (list charclass))) (c1 c2 : ascii) (rest : string)
    (ms : list string) (r : string) :
  first2 g c1 c2 = true ->
  match_groups gs rest = Some (ms, r) ->
  match_groups (g :: gs) (String c1 (String c2 rest))
  = Some (String c1 (String c2 EmptyString) :: ms, r).
Proof.
  intros H Hgs. induction g as [|a alts IH]; [discriminate H|].
  cbn [first2] in H.
  destruct a as [|f1 [|f2 [|? ?]]]; try discriminate H.
  rewrite match_groups_alternative. cbn [match_seq].
  destruct (f1 c1); cbn [andb] in H; [|exact (IH H)].
  destruct (f2 c2); [|exact (IH H)].
  rewrite Hgs. reflexivity.
Qed.

Lemma two_digits_checked (g : list (list charclass)) (lo : Z) (n : positive)
    (v : Z) :
  forall_range (check_two_digits g) lo n = true ->
  lo <= v < lo + Zpos n ->
  first2 g (digit_char (v / 10)) (digit_char (v mod 10)) = true
  /\ all_digits (two_digits v) = true
  /\ int_ (two_digits v) = Ok v.
Proof.
  intros Hall Hv.
  pose proof (forall_range_spec _ _ _ Hall v Hv) as H.
  unfold check_two_digits in H.
  apply andb_prop in H. destruct H as [H H4].
  apply andb_prop in H. destruct H as [H H3].
  apply andb_prop in H. destruct H as [H1 H2].
  split; [exact H1|]. split.
  - cbn [two_digits all_digits]. rewrite H2, H3. reflexivity.
  - destruct (int_ (two_digits v)) as [w|]; [|discriminate H4].
    apply Z.eqb_eq in H4. subst w. reflexivity.
Qed.

Lemma all_digits_app (a b : string) :
  all_digits a = true -> all_digits b = true ->
  all_digits (a ++ b) = true.
Proof.
  induction a as [|c a IH]; cbn [append all_digits]; [auto|].
  intros Ha Hb. apply andb_prop in Ha. destruct Ha as [Hc Ha].
  rewrite Hc, (IH Ha Hb). reflexivity.
Qed.

Lemma span_all_digits (s : string) :
  all_digits s = true -> span is_digit s = (s, EmptyString).
Proof.
  induction s as [|c s IH]; cbn [all_digits span]; [reflexivity|].
  intros H. apply andb_prop in H. destruct H as [Hc Hs].
  rewrite Hc, (IH Hs). reflexivity.
Qed.

Section RoundTrip.

Variable t : datetime.
Hypothesis t_valid : valid_datetime t.
Hypothesis t_years : 1969 <= year t <= 2068.

Lemma strftime_fields :
  (first2 re_y (digit_char (year t mod 100 / 10))
          (digit_char ((year t mod 100) mod 10)) = true
   /\ all_digits (two_digits (year t mod 100)) = true
   /\ int_ (two_digits (year t mod 100)) = Ok (year t mod 100))
  /\ (first2 re_m (digit_char (month t / 10)) (digit_char (month t mod 10))
      = true
      /\ all_digits (two_digits (month t)) = true
      /\ int_ (two_digits (month t)) = Ok (month t))
  /\ (first2 re_d (digit_char (day t / 10)) (digit_char (day t mod 10)) = true
      /\ all_digits (two_digits (day t)) = true
      /\ int_ (two_digits (day t)) = Ok (day t))
  /\ (first2 re_H (digit_char (hour t / 10)) (digit_char (hour t mod 10))
      = true
      /\ all_digits (two_digits (hour t)) = true
      /\ int_ (two_digits (hour t)) = Ok (hour t))
  /\ (first2 re_M (digit_char (minute t / 10)) (digit_char (minute t mod 10))
      = true
      /\ all_digits (two_digits (minute t)) = true
      /\ int_ (two_digits (minute t)) = Ok (minute t))
  /\ (first2 re_S (digit_char (second t / 10)) (digit_char (second t mod 10))
      = true
      /\ all_digits (two_digits (second t)) = true
      /\ int_ (two_digits (second t)) = Ok (second t)).
Proof.
  destruct t_valid as [_ [Hm [Hd [Hh [Hmi Hs]]]]].
  pose proof (days_in_month_range (year t) (month t) Hm) as Hdim.
  repeat apply conj.
  1-3: apply (two_digits_checked re_y 0 100);
    [vm_compute; reflexivity|Z.div_mod_to_equations; lia].
  1-3: apply (two_digits_checked re_m 1 12); [vm_compute; reflexivity|lia].
  1-3: apply (two_digits_checked re_d 1 31); [vm_compute; reflexivity|lia].
  1-3: apply (two_digits_checked re_H 0 24); [vm_compute; reflexivity|lia].
  1-3: apply (two_digits_checked re_M 0 60); [vm_compute; reflexivity|lia].
  1-3: apply (two_digits_checked re_S 0 60); [vm_compute; reflexivity|lia].
Qed.

Lemma strftime_digits : all_digits (strftime t) = true.
Proof.
  destruct strftime_fields
    as [[_ [Hy _]] [[_ [Hm _]] [[_ [Hd _]] [[_ [Hh _]] [[_ [Hmi _]]
         [_ [Hs _]]]]]]].
  unfold strftime. repeat apply all_digits_app; assumption.
Qed.

Lemma strptime_strftime : strptime (strftime t) = Ok t.
Proof.
  destruct strftime_fields
    as [[Fy [_ Iy]] [[Fm [_ Im]] [[Fd [_ Id]] [[Fh [_ Ih]] [[Fmi [_ Imi]]
         [Fs [_ Is]]]]]]].
  unfold strptime, strftime.
  assert (E : match_groups P1_TIME_FMT
                (two_digits (year t mod 100) ++ two_digits (month t)
                 ++ two_digits (day t) ++ two_digits (hour t)
                 ++ two_digits (minute t) ++ two_digits (second t))
              = Some ([ two_digits (year t mod 100); two_digits (month t);
                        two_digits (day t); two_digits (hour t);
                        two_digits (minute t); two_digits (second t) ],
                      EmptyString)).
  { unfold P1_TIME_FMT. cbn [two_digits append].
    apply (match_groups_two re_y); [exact Fy|].
    apply (match_groups_two re_m); [exact Fm|].
    apply (match_groups_two re_d); [exact Fd|].
    apply (match_groups_two re_H); [exact Fh|].
    apply (match_groups_two re_M); [exact Fmi|].
    apply (match_groups_two re_S); [exact Fs|].
    reflexivity. }
  rewrite E, Iy, Im, Id, Ih, Imi, Is. cbn [bind].
  replace (if year t mod 100 <=? 68
           then year t mod 100 + 2000 else year t mod 100 + 1900)
    with (year t)
    by (destruct (Z.leb_spec (year t mod 100) 68);
        Z.div_mod_to_equations; lia).
  unfold datetime_new.
  destruct t_valid as [Hy [Hm [Hd [Hh [Hmi Hs]]]]].
  replace ((1 <=? year t) && (year t <=? 9999) && (1 <=? month t)
           && (month t <=? 12) && (1 <=? day t)
           && (day t <=? _days_in_month (year t) (month t))
           && (0 <=? hour t) && (hour t <=? 23) && (0 <=? minute t)
           && (minute t <=? 59) && (0 <=? second t) && (second t <=? 59))%bool
    with true.
  - destruct t. reflexivity.
  - symmetry. repeat (apply andb_true_intro; split); apply Z.leb_le; lia.
Qed.

(** The timestamp line of a telegram for the local time [t], with the flag
    of standard time. *)
Lemma timestamp_line_matches :
  regex_p1_timestamp ("0-0:1.0.0(" ++ strftime t ++ "W)")
  = Some (strftime t, "W").
Proof.
  unfold regex_p1_timestamp.
  change (lit "0-0:1.0.0(" ("0-0:1.0.0(" ++ strftime t ++ "W)"))
    with (Some (strftime t ++ "W)")%string).
  unfold stamped, many1.
  rewrite (span_app is_digit (strftime t) "W)")
    by (first [apply span_all_digits; exact strftime_digits | reflexivity]).
  pose proof strftime_digits as Hd. unfold strftime in *.
  cbn [two_digits append] in *. reflexivity.
Qed.

End RoundTrip.

(** X11: a local time from 1969 to 2068, written in the P1 format (two
    digits each for year, month, day, hour, minute and second), is read
    back by [strptime] as the same date-time. *)
Theorem strptime_reads_back (t : datetime) :
  valid_datetime t ->
  1969 <= year t <= 2068 ->
  strptime (strftime t) = Ok t.
Proof. intros Hv Hy. exact (strptime_strftime t Hv Hy). Qed.

Lemma strptime_reads_back_witness :
  strptime (strftime (mk_datetime 2000 2 29 23 59 59))
  = Ok (mk_datetime 2000 2 29 23 59 59).
Proof.
  apply strptime_reads_back.
  - unfold valid_datetime. vm_compute. repeat split; discriminate.
  - vm_compute. split; discriminate.
Defined.

(** X12: the timestamp line that carries a local time from 1969 to 2068
    with the flag W sets the timestamp of the Reading to the date-time
    [time.timezone] seconds from that local time, and nothing else, when
    [time.timezone] is at most a day. *)
Theorem timestamp_line_sets_utc (tz az : Z) (p1 : P1Data) (t : datetime) :
  valid_datetime t ->
  1969 <= year t <= 2068 ->
  Z.abs tz <= 86400 ->
  exists utc : datetime,
    p1_data_from_line tz az p1 ("0-0:1.0.0(" ++ strftime t ++ "W)")
    = Ok (set_timestamp utc p1)
    /\ instant utc = instant t + tz
    /\ valid_datetime utc.
Proof.
  intros Hv Hy Htz.
  destruct (localtime_to_utc_spec tz az (strftime t) "W" t
              (strptime_strftime t Hv Hy) Htz) as [utc [Hu [Hi Hvu]]].
  exists utc. split; [|split; assumption].
  rewrite (timestamp_line tz az p1 _ (strftime t) "W").
  - rewrite Hu. reflexivity.
  - exact (timestamp_line_matches t Hv).
  - reflexivity.
  - reflexivity.
  - reflexivity.
  - reflexivity.
  - reflexivity.
Qed.

Lemma timestamp_line_sets_utc_witness :
  exists utc : datetime,
    p1_data_from_line (-3600) (-7200) P1Data_ "0-0:1.0.0(210301003000W)"
    = Ok (set_timestamp utc P1Data_)
    /\ instant utc = instant (mk_datetime 2021 3 1 0 30 0) + -3600
    /\ valid_datetime utc.
Proof.
  refine (timestamp_line_sets_utc (-3600) (-7200) P1Data_
            (mk_datetime 2021 3 1 0 30 0) _ _ _).
  - unfold valid_datetime. vm_compute. repeat split; discriminate.
  - vm_compute. split; discriminate.
  - vm_compute. discriminate.
Defined.

(** * The trailer pattern on the lines of the loop *)

(** What [rstrip] returns does not end in white space. *)
Lemma rstrip_last (s a : string) (c : ascii) :
  rstrip s = (a ++ String c EmptyString)%string -> isspace c = false.
Proof.
  revert a. induction s as [|x s IH]; intros a H; cbn [rstrip] in H.
  - destruct a; discriminate H.
  - destruct (rstrip s) as [|y r] eqn:E.
    + destruct (isspace x) eqn:Hx.
      * destruct a; discriminate H.
      * destruct a as [|a0 a]; cbn [append] in H.
        -- inversion H; subst. exact Hx.
        -- destruct a; discriminate H.
    + destruct a as [|a0 a]; cbn [append] in H; [discriminate H|].
      inversion H; subst. apply (IH a). assumption.
Qed.

Lemma exactly_spec (n : nat) (f : ascii -> bool) (s a b : string) :
  exactly n f s = Some (a, b) ->
  s = (a ++ b)%string /\ String.length a = n /\ all_chars f a = true.
Proof.
  revert s a. induction n as [|n IH]; intros s a H; cbn [exactly] in H.
  - inversion H; subst. repeat split.
  - destruct s as [|c s]; [discriminate H|].
    destruct (f c) eqn:Hc; [|discriminate H].
    destruct (exactly n f s) as [[a' b']|] eqn:E; [|discriminate H].
    inversion H; subst. destruct (IH s a' E) as [-> [Hlen Hall]].
    cbn [append String.length all_chars]. rewrite Hc, Hlen, Hall.
    repeat split.
Qed.

Lemma exactly_all (f : ascii -> bool) (a : string) :
  all_chars f a = true ->
  exactly (String.length a) f a = Some (a, EmptyString).
Proof.
  induction a as [|c a IH]; cbn [all_chars String.length exactly];
    [reflexivity|].
  intros H. apply andb_prop in H. destruct H as [Hc Ha].
  rewrite Hc, (IH Ha). reflexivity.
Qed.

Lemma append_empty (a : string) : (a ++ EmptyString)%string = a.
Proof.
  induction a as [|c a IH]; cbn [append]; [reflexivity|].
  rewrite IH. reflexivity.
Qed.

(** X13: among the lines the loop tests, which are stripped, the trailer
    pattern matches exactly an exclamation mark followed by four characters
    out of 0-9 and A-F and nothing else; what it captures is these four
    characters. *)
Theorem trailer_on_stripped_line (raw crc : string) :
  regex_p1_crc (strip raw) = Some crc
  <-> strip raw = String "!" crc
      /\ String.length crc = 4%nat
      /\ all_chars is_upper_hex crc = true.
Proof.
  split.
  - unfold regex_p1_crc.
    destruct (lit "!" (strip raw)) as [r|] eqn:E1; [|discriminate].
    apply lit_app in E1. cbn [append] in E1.
    destruct (exactly 4 is_upper_hex r) as [[c r2]|] eqn:E2; [|discriminate].
    apply exactly_spec in E2. destruct E2 as [-> [Hlen Hall]].
    destruct (dollar r2) eqn:E3; [|discriminate].
    intros H. inversion H; subst c. clear H.
    destruct r2 as [|x [|? ?]]; [| |discriminate E3].
    + rewrite append_empty in E1. repeat split; assumption.
    + cbn [dollar] in E3. apply Ascii.eqb_eq in E3. subst x.
      assert (Hsp : isspace newline = false).
      { apply (rstrip_last (lstrip raw) (String "!" crc)).
        exact E1. }
      discriminate Hsp.
  - intros [E [Hlen Hall]]. rewrite E. unfold regex_p1_crc.
    change (lit "!" (String "!" crc)) with (Some crc).
    rewrite <- Hlen, (exactly_all is_upper_hex crc Hall). reflexivity.
Qed.

(** * The header pattern on the lines of the loop *)

Lemma span_all (f : ascii -> bool) (s : string) :
  span f s = (s, EmptyString) <-> all_chars f s = true.
Proof.
  induction s as [|c s IH]; cbn [span all_chars].
  - split; reflexivity.
  - destruct (f c); cbn [andb].
    + destruct (span f s) as [a b] eqn:E. split.
      * intros H. inversion H; subst. apply IH. reflexivity.
      * intros H. apply IH in H. inversion H; subst. reflexivity.
    + split; discriminate.
Qed.

Lemma append_assoc_ (a b c : string) :
  (a ++ (b ++ c))%string = ((a ++ b) ++ c)%string.
Proof.
  induction a as [|x a IH]; cbn [append]; [reflexivity|].
  rewrite IH. reflexivity.
Qed.

(** X14: among the lines the loop tests, which are stripped, the header
    pattern matches exactly the lines that begin with /ISK5 and hold no
    newline; whatever else follows the five characters, the line starts a
    frame. *)
Theorem header_on_stripped_line (raw : string) :
  regex_p1_header (strip raw) = true
  <-> exists rest : string,
        strip raw = ("/ISK5" ++ rest)%string
        /\ all_chars (fun c => negb (Ascii.eqb c newline)) rest = true.
Proof.
  unfold regex_p1_header. split.
  - destruct (lit "/ISK5" (strip raw)) as [r|] eqn:E1; [|discriminate].
    apply lit_app in E1.
    destruct (span (fun c => negb (Ascii.eqb c newline)) r) as [a b] eqn:E2.
    destruct (span_spec _ _ _ _ E2) as [-> [Ha _]].
    cbn [snd]. intros Hd. exists a.
    destruct b as [|x [|? ?]]; [| |discriminate Hd].
    + rewrite append_empty in E1. split; [exact E1|].
      apply span_all. exact Ha.
    + cbn [dollar] in Hd. apply Ascii.eqb_eq in Hd. subst x.
      rewrite append_assoc_ in E1.
      assert (Hsp : isspace newline = false)
        by (apply (rstrip_last (lstrip raw) ("/ISK5" ++ a)); exact E1).
      discriminate Hsp.
  - intros [rest [E Hall]]. rewrite E.
    change (lit "/ISK5" ("/ISK5" ++ rest)) with (Some rest).
    cbv beta iota. apply span_all in Hall. rewrite Hall. reflexivity.
Qed.

(** * Telegrams in a row *)

Lemma routed_app (xs ys : list event) :
  routed (xs ++ ys) = (routed xs ++ routed ys)%list.
Proof.
  induction xs as [|e xs IH]; cbn [app routed]; [reflexivity|].
  destruct e; cbn [app]; rewrite IH; reflexivity.
Qed.

Lemma complaints_app (xs ys : list event) :
  complaints (xs ++ ys) = (complaints xs ++ complaints ys)%list.
Proof.
  induction xs as [|e xs IH]; cbn [app complaints]; [reflexivity|].
  destruct e; cbn [app]; rewrite IH; reflexivity.
Qed.

(** What routing a Reading with a timestamp leaves behind: one record in
    the high-resolution bucket, one report, no complaint. *)
Lemma add_p1_observed (p1 : P1Data) :
  timestamp p1 <> None ->
  snd (add_p1_to_influxdb p1) = Ok tt
  /\ routed (fst (add_p1_to_influxdb p1)) = [p1]
  /\ written_to influxdb_highres_bucket (fst (add_p1_to_influxdb p1))
     = [p1_points p1]
  /\ complaints (fst (add_p1_to_influxdb p1)) = [].
Proof.
  intros Ht. split.
  - unfold add_p1_to_influxdb.
    destruct (timestamp p1) as [t|]; [|contradiction Ht; reflexivity].
    cbn [attr_second lift emit io_bind io_ret app].
    destruct (second t =? 0); reflexivity.
  - rewrite add_p1_trace.
    destruct (timestamp p1) as [t|]; [|contradiction Ht; reflexivity].
    destruct (second t =? 0); repeat split; reflexivity.
Qed.

(** One telegram whose body gives a Reading with a timestamp: the Reading
    is routed and the loop awaits the next header. *)
Lemma frame_routed (tz az : Z) (f : telegram) (p1 : P1Data) :
  well_framed f ->
  p1_data_from_lines tz az (map strip (t_body f)) = Ok p1 ->
  timestamp p1 <> None ->
  run tz az AwaitHeader (telegram_lines f)
  = (AwaitHeader, fst (add_p1_to_influxdb p1)).
Proof.
  intros [Hhdr [Hlen [Hbody Htrailer]]] Hp1 Ht. unfold telegram_lines.
  change (t_header f :: t_body f ++ [t_trailer f])%list
    with ((t_header f :: t_body f) ++ [t_trailer f])%list.
  assert (E : run tz az AwaitHeader (t_header f :: t_body f)
              = (Collecting (map strip (t_body f)), [])).
  { cbn [run]. rewrite (header_step tz az _ Hhdr).
    rewrite (collect_lines tz az (t_body f) [] Hbody) by exact Hlen.
    reflexivity. }
  rewrite run_app, E, run_one. cbn [step].
  destruct (regex_p1_crc (strip (t_trailer f))) as [crc|];
    [|contradiction Htrailer; reflexivity].
  unfold lift, io_bind. rewrite Hp1.
  destruct (add_p1_observed p1 Ht) as [Hok _].
  destruct (add_p1_to_influxdb p1) as [out r]. cbn [snd fst] in *.
  rewrite Hok. reflexivity.
Qed.

(** C8, amended: the loop compares no timestamps.  Of telegrams in a row,
    each framed as the loop expects and each giving a Reading with a
    timestamp, every Reading is written to the high-resolution bucket and
    reported, in the order of the telegrams and with the timestamp of its
    own telegram, whatever the order of these timestamps; nothing is
    printed about any of them, and the loop awaits the next header. *)
Theorem regressions_are_routed (tz az : Z) (frames : list telegram)
    (readings : list P1Data) :
  Forall well_framed frames ->
  Forall2 (fun f p1 =>
             p1_data_from_lines tz az (map strip (t_body f)) = Ok p1
             /\ timestamp p1 <> None)
          frames readings ->
  exists out : list event,
    run tz az AwaitHeader (List.concat (map telegram_lines frames))
    = (AwaitHeader, out)
    /\ routed out = readings
    /\ written_to influxdb_highres_bucket out = map p1_points readings
    /\ map (fun record => map time record)
           (written_to influxdb_highres_bucket out)
       = map (fun p1 => [timestamp p1; timestamp p1; timestamp p1;
                         timestamp p1; gas_timestamp p1])
             readings
    /\ complaints out = [].
Proof.
  intros Hwf Hrd. revert Hwf.
  induction Hrd as [|f p1 frames readings [Hp1 Ht] _ IH]; intros Hwf.
  - exists []. repeat split.
  - inversion Hwf as [|? ? Hf Hfs]; subst.
    destruct (IH Hfs) as [out [Hrun [Hr [Hw [Htimes Hc]]]]].
    destruct (add_p1_observed p1 Ht) as [_ [Hr1 [Hw1 Hc1]]].
    exists (fst (add_p1_to_influxdb p1) ++ out)%list.
    cbn [map List.concat]. rewrite run_app.
    rewrite (frame_routed tz az f p1 Hf Hp1 Ht), Hrun.
    rewrite routed_app, written_to_app, complaints_app.
    rewrite Hr1, Hw1, Hc1, Hr, Hw, Hc. cbn [app map].
    rewrite Hw in Htimes. rewrite Htimes.
    repeat split.
Qed.

Lemma regressions_are_routed_witness :
  exists out : list event,
    run (-3600) (-7200) AwaitHeader (List.concat (map telegram_lines
                                                 regressing_frames))
    = (AwaitHeader, out)
    /\ map timestamp (routed out)
       = [ Some (mk_datetime 2021 2 14 18 54 41);
           Some (mk_datetime 2021 2 14 18 54 40) ].
Proof.
  assert (Hwf : Forall well_framed regressing_frames).
  { repeat constructor; vm_compute; discriminate. }
  assert (Hrd : Forall2
                  (fun f p1 =>
                     p1_data_from_lines (-3600) (-7200)
                       (map strip (t_body f)) = Ok p1
                     /\ timestamp p1 <> None)
                  regressing_frames
                  [ mk_P1Data (Some (mk_datetime 2021 2 14 18 54 41))
                      (Some (Prim2SF 234.0%float)) None None None None None;
                    mk_P1Data (Some (mk_datetime 2021 2 14 18 54 40))
                      (Some (Prim2SF 235.0%float)) None None None None None ]).
  { repeat constructor; solve [vm_compute; reflexivity | discriminate]. }
  destruct (regressions_are_routed (-3600) (-7200) _ _ Hwf Hrd)
    as [out [Hrun [Hr _]]].
  exists out. split; [exact Hrun|]. rewrite Hr. reflexivity.
Defined.
